(** * Books-to-Scrape scraper: a shallow embedding and its properties

  The development follows the three Python modules of the repository:

  - [phase1/scraper.py]  ([fetch_page], [extract_book_data]),
  - [phase2/scraper_category.py]  ([fetch_category_urls],
    [save_category_to_csv]),
  - [utils/saver.py]  ([save_to_csv], [save_category_to_csv]).

  Python values are modelled as follows.  A [str] is a Rocq [string]; a
  non-ASCII character is the sequence of its UTF-8 bytes, and the character
  classes of [re] ([\d], [\s]) and the case functions of [str] are the
  ASCII ones.  An [int] is a [Z].  A [float] is a value of an abstract type
  supplied by the platform.  A raised exception is a value of [exn]; code
  that may raise returns a [result].  The libraries the program calls
  ([requests], [bs4]'s parser, [urllib.parse.urljoin], [os], [csv]) are
  interfaces (type classes) whose instances stand for the outside world. *)

From Stdlib Require Import String Ascii List ZArith Lia Bool DecimalString.
Import ListNotations.
Open Scope list_scope.
Open Scope string_scope.
Set Warnings "-register-all".

(* ================================================================== *)
(** * Python: exceptions, results, strings *)
(* ================================================================== *)

Module Py.

(** The exception classes the program raises, catches, or can receive
    from the libraries it calls.  All of them derive from [Exception]. *)
Inductive exn_class :=
| ValueError | AttributeError | TypeError | KeyError | IndexError
| RuntimeError
| OSError | PermissionError | FileNotFoundError
| RequestException | HTTPError | ConnectionError | Timeout.

(** An exception instance: its class and [str(e)]. *)
Record exn := mk_exn { exn_cls : exn_class; exn_msg : string }.

(** [isinstance(e, requests.exceptions.RequestException)]. *)
Definition is_RequestException (e : exn) : bool :=
  match exn_cls e with
  | RequestException | HTTPError | ConnectionError | Timeout => true
  | _ => false
  end.

(** [isinstance(e, PermissionError)]. *)
Definition is_PermissionError (e : exn) : bool :=
  match exn_cls e with
  | PermissionError => true
  | _ => false
  end.

(** The outcome of evaluating an expression or running a block. *)
Inductive result (A : Type) :=
| Return (a : A)
| Raise (e : exn).
Arguments Return {A} a.
Arguments Raise {A} e.

Definition bind {A B} (m : result A) (k : A -> result B) : result B :=
  match m with
  | Return a => k a
  | Raise e => Raise e
  end.

(** [try: body  except <cls> as e: handler(e)], for the classes selected
    by [sel]; the other exceptions propagate. *)
Definition try_except {A} (body : result A) (sel : exn -> bool)
           (handler : exn -> result A) : result A :=
  match body with
  | Return a => Return a
  | Raise e => if sel e then handler e else Raise e
  end.

(** [except Exception]: every class of [exn_class] derives from it. *)
Definition is_Exception (e : exn) : bool := true.

(** [x[k]] on an optional object: [None] is not subscriptable. *)
Definition from_option {A} (o : option A) (e : exn) : result A :=
  match o with
  | Some a => Return a
  | None => Raise e
  end.

(** [l[i]] past the end of a list. *)
Definition index_out_of_range : exn :=
  mk_exn IndexError "list index out of range".

Definition nl : string := String (ascii_of_nat 10) EmptyString.

(** ** Characters *)

Definition is_digit (c : ascii) : bool :=
  let n := nat_of_ascii c in (48 <=? n)%nat && (n <=? 57)%nat.

(** [str.isspace] on ASCII: TAB, LF, VT, FF, CR, FS, GS, RS, US, SPACE. *)
Definition is_space (c : ascii) : bool :=
  let n := nat_of_ascii c in
  ((9 <=? n)%nat && (n <=? 13)%nat)
  || ((28 <=? n)%nat && (n <=? 32)%nat).

Definition upper (c : ascii) : ascii :=
  let n := nat_of_ascii c in
  if (97 <=? n)%nat && (n <=? 122)%nat then ascii_of_nat (n - 32) else c.

Definition lower (c : ascii) : ascii :=
  let n := nat_of_ascii c in
  if (65 <=? n)%nat && (n <=? 90)%nat then ascii_of_nat (n + 32) else c.

Fixpoint map_string (f : ascii -> ascii) (s : string) : string :=
  match s with
  | EmptyString => EmptyString
  | String c r => String (f c) (map_string f r)
  end.

(** [s.capitalize()]: first character upper-cased, the rest lower-cased. *)
Definition capitalize (s : string) : string :=
  match s with
  | EmptyString => EmptyString
  | String c r => String (upper c) (map_string lower r)
  end.

(** [s.replace(old, new)] for a non-empty [old]: the occurrences of [old]
    are found from left to right without overlap; [skip] counts the
    characters of the current occurrence still to be dropped. *)
Fixpoint replace_from (skip : nat) (old new s : string) : string :=
  match s with
  | EmptyString => EmptyString
  | String c r =>
      match skip with
      | S k => replace_from k old new r
      | O =>
          if prefix old s
          then new ++ replace_from (String.length old - 1) old new r
          else String c (replace_from 0 old new r)
      end
  end.

Definition replace (s old new : string) : string := replace_from 0 old new s.

(** [s.lstrip()], [s.rstrip()], [s.strip()] with no argument. *)
Fixpoint lstrip (s : string) : string :=
  match s with
  | EmptyString => EmptyString
  | String c r => if is_space c then lstrip r else s
  end.

Fixpoint rstrip (s : string) : string :=
  match s with
  | EmptyString => EmptyString
  | String c r =>
      match rstrip r with
      | EmptyString => if is_space c then EmptyString else String c EmptyString
      | r' => String c r'
      end
  end.

Definition strip (s : string) : string := rstrip (lstrip s).

(** [int(s)] on a string of ASCII decimal digits ([acc] is the value of
    the digits already read).  Integers are unbounded; the cap that recent
    interpreters put on the length of the digit string is not modelled. *)
Fixpoint int_of_digits (acc : Z) (s : string) : Z :=
  match s with
  | EmptyString => acc
  | String c r => int_of_digits (10 * acc + Z.of_nat (nat_of_ascii c - 48)) r
  end.

Definition int (s : string) : Z := int_of_digits 0 s.

(** ** Dictionaries: insertion-ordered association lists *)

Definition dict (V : Type) := list (string * V).

Fixpoint dict_get {V} (d : dict V) (k : string) : option V :=
  match d with
  | [] => None
  | (k', v) :: r => if String.eqb k' k then Some v else dict_get r k
  end.

Definition keys {V} (d : dict V) : list string := map fst d.

(** [repr(s)] as it appears in [str(KeyError(s))], for a key without
    quotes or escapes. *)
Definition repr_key (k : string) : string := "'" ++ k ++ "'".

(** [d[k]]. *)
Definition dict_getitem {V} (d : dict V) (k : string) : result V :=
  from_option (dict_get d k) (mk_exn KeyError (repr_key k)).

End Py.

Import Py.

Declare Scope py_scope.
Delimit Scope py_scope with py.
Notation "x <- m ;; k" := (Py.bind m (fun x => k))
(at level 61, m at next level, right associativity) : py_scope.
Open Scope py_scope.

(* ================================================================== *)
(** * bs4: the parsed document and its queries *)
(* ================================================================== *)

Module Bs4.

(** An attribute value: a string, or a list of strings for a multi-valued
    attribute such as [class]. *)
Inductive attr_value :=
| AttrStr (s : string)
| AttrList (l : list string).

(** A document node: a text node or a tag with attributes and children. *)
Inductive node :=
| NavigableString (s : string)
| Tag (name : string) (attrs : dict attr_value) (contents : list node).

(** What a query returns: a node of the tree and the siblings after it,
    which is what [find_next_sibling] walks. *)
Record element := mk_element { here : node; next_siblings : list node }.

(** [tag.descendants], in document order. *)
Fixpoint descendants (n : node) : list element :=
  match n with
  | NavigableString _ => []
  | Tag _ _ cs =>
      (fix walk (l : list node) : list element :=
         match l with
         | [] => []
         | c :: r => mk_element c r :: (descendants c ++ walk r)%list
         end) cs
  end.

(** [tag.string]. *)
Fixpoint string_of (n : node) : option string :=
  match n with
  | NavigableString s => Some s
  | Tag _ _ [c] => string_of c
  | Tag _ _ _ => None
  end.

(** [tag.text]: the text nodes below the tag, concatenated. *)
Fixpoint text_of (n : node) : string :=
  match n with
  | NavigableString s => s
  | Tag _ _ cs =>
      (fix cat (l : list node) : string :=
         match l with
         | [] => EmptyString
         | c :: r => text_of c ++ cat r
         end) cs
  end.

Definition text (e : element) : string := text_of (here e).

Definition attrs_of (n : node) : dict attr_value :=
  match n with
  | NavigableString _ => []
  | Tag _ a _ => a
  end.

Definition is_tag (name : string) (n : node) : bool :=
  match n with
  | NavigableString _ => false
  | Tag nm _ _ => String.eqb nm name
  end.

(** How a search value is compared with what the tag has: a missing value
    matches only an empty search value; a list matches when one of its
    items does, or when its items joined by a space do. *)
Definition matches_str (v : option string) (against : string) : bool :=
  match v with
  | None => String.eqb against EmptyString
  | Some s => String.eqb s against
  end.

Definition matches_attr (v : option attr_value) (against : string) : bool :=
  match v with
  | None => String.eqb against EmptyString
  | Some (AttrStr s) => String.eqb s against
  | Some (AttrList l) =>
      existsb (fun item => String.eqb item against) l
      || String.eqb (String.concat " " l) against
  end.

(** The filter of [find(name, attrs..., string=...)] on one node: the tag
    name, then every attribute asked for, then [tag.string] when a
    non-empty [string] is asked for. *)
Definition matches (name : string) (attrs : list (string * string))
           (str : option string) (n : node) : bool :=
  is_tag name n
  && forallb (fun kv => matches_attr (dict_get (attrs_of n) (fst kv)) (snd kv))
             attrs
  && match str with
     | None => true
     | Some s => String.eqb s EmptyString || matches_str (string_of n) s
     end.

(** [tag.find_all(name, ...)] and [tag.find(name, ...)]. *)
Definition find_all (e : element) (name : string)
           (attrs : list (string * string)) (str : option string)
  : list element :=
  filter (fun d => matches name attrs str (here d)) (descendants (here e)).

Definition find (e : element) (name : string)
           (attrs : list (string * string)) (str : option string)
  : option element :=
  List.find (fun d => matches name attrs str (here d)) (descendants (here e)).

(** [tag.find_next_sibling(name)]. *)
Fixpoint first_sibling (name : string) (l : list node) : option element :=
  match l with
  | [] => None
  | c :: r => if is_tag name c then Some (mk_element c r)
              else first_sibling name r
  end.

Definition find_next_sibling (e : element) (name : string) : option element :=
  first_sibling name (next_siblings e).

(** [tag.get(key)] and [tag[key]]. *)
Definition get (e : element) (key : string) : option attr_value :=
  dict_get (attrs_of (here e)) key.

Definition getitem (e : element) (key : string) : result attr_value :=
  dict_getitem (attrs_of (here e)) key.

(** The document returned by the parser: its root has no sibling. *)
Definition soup_of (root : node) : element := mk_element root [].

(** Calling a method on the [None] that [find] returned. *)
Definition none_has_no_attribute (meth : string) : exn :=
  mk_exn AttributeError ("'NoneType' object has no attribute '" ++ meth ++ "'").

Definition none_not_subscriptable : exn :=
  mk_exn TypeError "'NoneType' object is not subscriptable".

Definition list_has_no_attribute (meth : string) : exn :=
  mk_exn AttributeError ("'list' object has no attribute '" ++ meth ++ "'").

End Bs4.

Import Bs4.

(* ================================================================== *)
(** * re: the one pattern of the program *)
(* ================================================================== *)

Module Re.

(** The longest prefix of [s] whose characters satisfy [p], and the rest. *)
Fixpoint span (p : ascii -> bool) (s : string) : string * string :=
  match s with
  | EmptyString => (EmptyString, EmptyString)
  | String c r =>
      if p c then let (a, b) := span p r in (String c a, b)
      else (EmptyString, s)
  end.

Definition is_empty (s : string) : bool :=
  match s with EmptyString => true | _ => false end.

(** [re.match(r'\((\d+)\s+available\)', s)]: group 1 when the pattern
    matches at the start of [s].  Digits, white space and the letter [a]
    are disjoint classes, so the greedy runs never have to give back. *)
Definition match_available (s : string) : option string :=
  match s with
  | String "("%char r =>
      let (ds, r1) := span is_digit r in
      let (ws, r2) := span is_space r1 in
      if negb (is_empty ds) && negb (is_empty ws) && prefix "available)" r2
      then Some ds else None
  | _ => None
  end.

(** [re.search(r'\((\d+)\s+available\)', s)]: the leftmost match. *)
Fixpoint search_available (s : string) : option string :=
  match match_available s with
  | Some g => Some g
  | None =>
      match s with
      | EmptyString => None
      | String _ r => search_available r
      end
  end.

(** The pattern, read as a regular expression: an opening parenthesis, one
    or more digits (the group), one or more white-space characters, the
    literal [available)]. *)
Fixpoint all_chars (p : ascii -> bool) (s : string) : bool :=
  match s with
  | EmptyString => true
  | String c r => p c && all_chars p r
  end.


(** What is left of [s] after the literal [p], when [s] starts with it. *)
Fixpoint strip_prefix (p s : string) : option string :=
  match p with
  | EmptyString => Some s
  | String a p' =>
      match s with
      | EmptyString => None
      | String b s' => if Ascii.eqb a b then strip_prefix p' s' else None
      end
  end.

(** The class [[^_]]. *)
Definition not_underscore (c : ascii) : bool := negb (Ascii.eqb c "_"%char).

(** [re.match(r'/books/([^_]+)_\d+/', s)]: group 1 when the pattern matches
    at the start of [s].  The run of the group ends at the first
    underscore and the digits end at the slash, so neither greedy run has
    to give back. *)
Definition match_category (s : string) : option string :=
  match strip_prefix "/books/" s with
  | None => None
  | Some r =>
      let (name, r1) := span not_underscore r in
      match strip_prefix "_" r1 with
      | None => None
      | Some r2 =>
          let (ds, r3) := span is_digit r2 in
          match strip_prefix "/" r3 with
          | None => None
          | Some _ =>
              if negb (is_empty name) && negb (is_empty ds)
              then Some name else None
          end
      end
  end.

(** [re.search] for a pattern whose match at the start of a string is
    [matcher]: the leftmost start that matches. *)
Fixpoint search_first (matcher : string -> option string) (s : string)
  : option string :=
  match matcher s with
  | Some g => Some g
  | None =>
      match s with
      | EmptyString => None
      | String _ r => search_first matcher r
      end
  end.

(** [re.search(r'/books/([^_]+)_\d+/', s)]. *)
Definition search_category (s : string) : option string :=
  search_first match_category s.

(** The pattern, read as a regular expression: the literal [/books/], one
    or more characters other than the underscore (the group), an
    underscore, one or more digits, a slash. *)
Definition category_at_start (s g : string) : Prop :=
  exists ds rest,
    s = "/books/" ++ g ++ "_" ++ ds ++ "/" ++ rest
    /\ g <> EmptyString /\ all_chars not_underscore g = true
    /\ ds <> EmptyString /\ all_chars is_digit ds = true.

End Re.

(* ================================================================== *)
(** * The libraries and the outside world, as interfaces *)
(* ================================================================== *)

(** Python floats: [float(s)] and [str(x)]. *)
Class PyFloat := {
  float : Type;
  float_of_str : string -> result float;
  str_of_float : float -> string
}.

(** [urllib.parse.urljoin] on two strings. *)
Class Urllib := {
  urljoin : string -> string -> string
}.

(** What [requests] hands back: the status line and the body, the latter
    already decoded as UTF-8 (both fetchers force [response.encoding]). *)
Record response := mk_response {
  status_code : Z;
  reason : string;
  response_url : string;
  response_text : string
}.

(** The network as seen through [requests.get] / [session.get] with the
    fixed timeout: a response, or a raised exception. *)
Class Requests := {
  requests_get : string -> result response
}.

(** [BeautifulSoup(text, 'html.parser')]: the root of the parsed tree. *)
Class HtmlParser := {
  BeautifulSoup : string -> node
}.

(** A field of a scraped record. *)
Inductive value `{PyFloat} :=
| VStr (s : string)
| VInt (n : Z)
| VFloat (x : float).

(* ================================================================== *)
(** * phase1/scraper.py *)
(* ================================================================== *)

Module Phase1.
Section Scraper.
Context {F : PyFloat} {U : Urllib} {R : Requests} {P : HtmlParser}.

Definition fetch_failure (url : string) (e : exn) : exn :=
  mk_exn RuntimeError
    ("[ERREUR] Echec lors de la récupération de l'URL : " ++ url ++ nl
       ++ "-> " ++ exn_msg e).

(** [fetch_page(url)]. *)
Definition fetch_page (url : string) : result element :=
  try_except
    (response <- requests_get url ;;
     Return (soup_of (BeautifulSoup (response_text response))))
    is_RequestException
    (fun e => Raise (fetch_failure url e)).

(** The inner [get_table_value(label)], closed over [table]. *)
Definition get_table_value (table : option element) (label : string)
  : result string :=
  table <- from_option table (none_has_no_attribute "find") ;;
  match find table "th" [] (Some label) with
  | None =>
      Raise (mk_exn ValueError
               ("[ERREUR] champ '" ++ label ++ "' introuvable dans le tableau"))
  | Some th =>
      match find_next_sibling th "td" with
      | Some td => Return (text td)
      | None => Return "N/A"
      end
  end.

Definition number_not_found : string := "Nombre non trouvé".

(** Lines 80-81: the count in the availability cell, or the sentinel. *)
Definition number_available_of (availability : string) : value :=
  match Re.search_available availability with
  | Some group1 => VInt (int group1)
  | None => VStr number_not_found
  end.

(** Lines 82-84. *)
Definition product_description_of (soup : element) : string :=
  match find soup "div" [("id", "product_description")] None with
  | Some description_tag =>
      match find_next_sibling description_tag "p" with
      | Some p => text p
      | None => "N/A"
      end
  | None => "N/A"
  end.

(** Iterating over what [tag.get('class')] returned. *)
Fixpoint chars (s : string) : list string :=
  match s with
  | EmptyString => []
  | String c r => String c EmptyString :: chars r
  end.

Definition review_rating_classes_of (review_rating_tag : option element)
  : result (list string) :=
  match review_rating_tag with
  | None => Return []
  | Some tag =>
      match get tag "class" with
      | Some (AttrList l) => Return l
      | Some (AttrStr s) => Return (chars s)
      | None => Raise (mk_exn TypeError "'NoneType' object is not iterable")
      end
  end.

Definition review_rating_map : dict Z :=
  [("Zero", 0%Z); ("One", 1%Z); ("Two", 2%Z); ("Three", 3%Z);
   ("Four", 4%Z); ("Five", 5%Z)].

(** Lines 88-90, from the class list to the rating. *)
Definition review_rating_of (review_rating_classes : list string) : Z :=
  let review_rating_text :=
    match filter (fun cls => negb (String.eqb cls "star-rating"))
                 review_rating_classes with
    | cls :: _ => capitalize cls
    | [] => "Zero"
    end in
  match dict_get review_rating_map review_rating_text with
  | Some n => n
  | None => 0%Z
  end.

(** An attribute value used where a string is required by [urljoin]. *)
Definition urljoin_attr (base : string) (v : attr_value) : result string :=
  match v with
  | AttrStr s => Return (urljoin base s)
  | AttrList _ =>
      Raise (mk_exn TypeError "Cannot mix str and non-str arguments")
  end.

Definition book_data := dict value.

(** The body of the [try] of [extract_book_data], lines 58-105. *)
Definition extract_book_data_body (soup : element) (url : string)
  : result book_data :=
  let table := find soup "table" [("class", "table table-striped")] None in
  main <- from_option
            (find soup "div" [("class", "col-sm-6 product_main")] None)
            (none_has_no_attribute "find") ;;
  h1 <- from_option (find main "h1" [] None) (none_has_no_attribute "text") ;;
  let title := text h1 in
  availability <- get_table_value table "Availability" ;;
  let number_available := number_available_of availability in
  let product_description := product_description_of soup in
  let review_rating_tag := find soup "p" [("class", "star-rating")] None in
  review_rating_classes <- review_rating_classes_of review_rating_tag ;;
  let review_rating := review_rating_of review_rating_classes in
  upc <- get_table_value table "UPC" ;;
  incl <- get_table_value table "Price (incl. tax)" ;;
  price_including_tax <- float_of_str (replace incl "£" EmptyString) ;;
  excl <- get_table_value table "Price (excl. tax)" ;;
  price_excluding_tax <- float_of_str (replace excl "£" EmptyString) ;;
  breadcrumb <- from_option (find soup "ul" [("class", "breadcrumb")] None)
                  (none_has_no_attribute "find_all") ;;
  li <- from_option (nth_error (find_all breadcrumb "li" [] None) 2)
          index_out_of_range ;;
  let category := strip (text li) in
  item <- from_option (find soup "div" [("class", "item")] None)
            (none_has_no_attribute "find") ;;
  img <- from_option (find item "img" [] None) none_not_subscriptable ;;
  src <- getitem img "src" ;;
  image_url <- urljoin_attr url src ;;
  Return [ ("product_page_url", VStr url);
           ("universal_product_code", VStr upc);
           ("title", VStr title);
           ("price_including_tax", VFloat price_including_tax);
           ("price_excluding_tax", VFloat price_excluding_tax);
           ("number_available", number_available);
           ("product_description", VStr product_description);
           ("category", VStr category);
           ("review_rating", VInt review_rating);
           ("image_url", VStr image_url) ].

Definition extraction_failure (url : string) (e : exn) : exn :=
  mk_exn RuntimeError
    ("[ERREUR] Échec de l'extraction depuis " ++ url ++ " : " ++ exn_msg e).

(** [extract_book_data(soup, url)]. *)
Definition extract_book_data (soup : element) (url : string)
  : result book_data :=
  try_except (extract_book_data_body soup url)
             is_Exception
             (fun e => Raise (extraction_failure url e)).

End Scraper.
End Phase1.

(* ================================================================== *)
(** * Effects: the console and the file system *)
(* ================================================================== *)

Module Io.
Section Effects.
Context {F : PyFloat}.

(** What a run does to the outside world, in the order it does it. *)
Inductive event :=
| Makedirs (path : string)
    (** [os.makedirs(path, exist_ok=True)] *)
| OpenWrite (path encoding : string)
    (** [open(path, mode='w', newline='', encoding=encoding)] *)
| WriteRow (path delimiter : string) (cells : list value)
    (** one row handed to the [csv] writer of the file at [path] *)
| Close (path : string)
    (** leaving the [with] block *)
| Print (msg : string).

Definition trace := list event.

(** The file system: whether an operation raises, given what was done
    before.  [print] never consults it. *)
Class FileSystem := {
  fs_raises : trace -> event -> option exn
}.

Context {FS : FileSystem}.

(** A block of the program: from the events so far to an outcome and the
    events then. *)
Definition io (A : Type) := trace -> result A * trace.

Definition ret {A} (a : A) : io A := fun h => (Return a, h).

Definition raise {A} (e : exn) : io A := fun h => (Raise e, h).

Definition lift {A} (r : result A) : io A := fun h => (r, h).

Definition bind {A B} (m : io A) (k : A -> io B) : io B :=
  fun h =>
    match m h with
    | (Return a, h') => k a h'
    | (Raise e, h') => (Raise e, h')
    end.

(** An operation on the file system: it raises and leaves no event, or it
    happens. *)
Definition perform (ev : event) : io unit :=
  fun h =>
    match fs_raises h ev with
    | Some e => (Raise e, h)
    | None => (Return tt, (h ++ [ev])%list)
    end.

Definition print (msg : string) : io unit :=
  fun h => (Return tt, (h ++ [Print msg])%list).

(** [try: body  except <sel> as e: handler(e)]. *)
Definition try_except {A} (body : io A) (sel : exn -> bool)
           (handler : exn -> io A) : io A :=
  fun h =>
    match body h with
    | (Return a, h') => (Return a, h')
    | (Raise e, h') => if sel e then handler e h' else (Raise e, h')
    end.

(** [with open(path, mode='w', newline='', encoding=enc) as f: body]: the
    file is closed on the way out, also when [body] raised. *)
Definition with_open {A} (path encoding : string) (body : io A) : io A :=
  fun h =>
    match perform (OpenWrite path encoding) h with
    | (Raise e, h0) => (Raise e, h0)
    | (Return _, h0) =>
        match body h0 with
        | (Return a, h1) =>
            match perform (Close path) h1 with
            | (Return _, h2) => (Return a, h2)
            | (Raise e, h2) => (Raise e, h2)
            end
        | (Raise e, h1) =>
            match perform (Close path) h1 with
            | (Return _, h2) => (Raise e, h2)
            | (Raise e', h2) => (Raise e', h2)
            end
        end
    end.

(** ** csv.DictWriter *)

Definition join_with (sep : string) (l : list string) : string :=
  String.concat sep l.

(** [DictWriter.writeheader()]. *)
Definition writeheader (path delimiter : string) (fieldnames : list string)
  : io unit :=
  perform (WriteRow path delimiter (map VStr fieldnames)).

(** [DictWriter.writerow(rowdict)]: a key outside [fieldnames] is an error
    ([extrasaction='raise']); a missing key is written as the empty string
    ([restval]). *)
Definition dict_to_list (fieldnames : list string) (rowdict : dict value)
  : result (list value) :=
  match filter (fun k => negb (existsb (String.eqb k) fieldnames))
               (keys rowdict) with
  | [] =>
      Return (map (fun k => match dict_get rowdict k with
                            | Some v => v
                            | None => VStr EmptyString
                            end) fieldnames)
  | wrong_fields =>
      Raise (mk_exn ValueError
               ("dict contains fields not in fieldnames: "
                  ++ join_with ", " (map repr_key wrong_fields)))
  end.

Definition writerow (path delimiter : string) (fieldnames : list string)
           (rowdict : dict value) : io unit :=
  bind (lift (dict_to_list fieldnames rowdict))
       (fun cells => perform (WriteRow path delimiter cells)).

(** [DictWriter.writerows(rowdicts)]. *)
Fixpoint writerows (path delimiter : string) (fieldnames : list string)
         (rowdicts : list (dict value)) : io unit :=
  match rowdicts with
  | [] => ret tt
  | d :: r =>
      bind (writerow path delimiter fieldnames d)
           (fun _ => writerows path delimiter fieldnames r)
  end.

(** [str(v)] inside an f-string. *)
Definition str_of_Z (n : Z) : string :=
  DecimalString.NilZero.string_of_int (Z.to_int n).

(** [str(len(l))]. *)
Definition str_of_len {A} (l : list A) : string :=
  str_of_Z (Z.of_nat (List.length l)).

Definition str (v : value) : string :=
  match v with
  | VStr s => s
  | VInt n => str_of_Z n
  | VFloat x => str_of_float x
  end.

End Effects.
End Io.

Notation "x <~ m ;; k" := (Io.bind m (fun x => k))
  (at level 61, m at next level, right associativity) : py_scope.

(** [os.path] and the directories the modules compute from [__file__]. *)
Class Os := {
  path_join : string -> string -> string;
  (** [abspath(join(dirname(utils/saver.py), '..', 'phase1'))] *)
  phase1_dir : string;
  (** [dirname(abspath(utils/saver.py))] *)
  utils_dir : string;
  (** [dirname(abspath(phase2/scraper_category.py))] *)
  phase2_dir : string
}.

(** [str(DATE_TODAY)], the date read once when [utils.saver] is loaded;
    [phase2/scraper_category.py] formats the same name. *)
Class Today := {
  DATE_TODAY : string
}.

(** [utils.cleaner.clean_filename], the imported sanitizer of file names:
    any function of the title that returns a string or raises. *)
Class Cleaner `{PyFloat} := {
  clean_filename : value -> result string
}.

(* ================================================================== *)
(** * utils/saver.py *)
(* ================================================================== *)

Module Saver.
Section Saver.
Context {F : PyFloat} {FS : Io.FileSystem} {OS : Os} {D : Today} {C : Cleaner}.

Import Io.

Definition file_in_use (csv_path : string) : exn :=
  mk_exn PermissionError
    ("[ERREUR] Le fichier est déjà ouvert ailleurs (ex: Excel). "
       ++ "Ferme-le pour pouvoir sauvegarder : " ++ csv_path).

(** The two [except] clauses of [save_to_csv], lines 35-38; [csv_path] is
    the directory. *)
Definition save_to_csv_except (csv_path : string) (e : exn)
  : io (option string) :=
  if is_PermissionError e then raise (file_in_use csv_path)
  else
    _ <~ print ("[ERREUR] Impossible d'enregistrer le fichier CSV :" ++ nl
                  ++ "-> " ++ exn_msg e) ;;
    ret None.

(** The body of the [try] of [save_to_csv], lines 21-34. *)
Definition save_to_csv_try (book_data : dict value) (folder : string)
  : io (option string) :=
  let csv_path := path_join phase1_dir folder in
  _ <~ perform (Makedirs csv_path) ;;
  title <~ lift (dict_getitem book_data "title") ;;
  clean_title <~ lift (clean_filename title) ;;
  let csv_fieldname := clean_title ++ "_" ++ DATE_TODAY ++ ".csv" in
  let csv_file := path_join csv_path csv_fieldname in
  _ <~ with_open csv_file "utf-8-sig"
         (_ <~ writeheader csv_file ";" (keys book_data) ;;
          writerow csv_file ";" (keys book_data) book_data) ;;
  title' <~ lift (dict_getitem book_data "title") ;;
  _ <~ print (nl ++ "Les données du livre : '" ++ str title'
                ++ "' ont étaient exportées vers " ++ csv_file) ;;
  ret (Some csv_fieldname).

(** [save_to_csv(book_data, folder)]; the result is the returned file name,
    or [None] when the function falls off its end. *)
Definition save_to_csv (book_data : dict value) (folder : string)
  : io (option string) :=
  try_except (save_to_csv_try book_data folder)
             is_Exception
             (save_to_csv_except (path_join phase1_dir folder)).

(** The two [except] clauses of [save_category_to_csv], lines 72-75, with
    the value [csv_path] has when the exception arrives. *)
Definition save_category_except (csv_path : string) (e : exn) : io unit :=
  if is_PermissionError e then raise (file_in_use csv_path)
  else print ("[ERREUR] Échec lors de l'écriture du fichier CSV : "
                ++ exn_msg e).

Definition category_csv_dir : string := path_join utils_dir "CSV".

Definition category_csv_fieldname (category_name : string) : string :=
  "products_category_" ++ category_name ++ "_" ++ DATE_TODAY ++ ".csv".

(** The body of the [try] of [save_category_to_csv], lines 58-71.  The
    variable [csv_path] is first the directory and then the file; the body
    hands back the value it has on the way out, which the first [except]
    clause prints. *)
Definition save_category_try (data_list : list (dict value))
           (category_name : string) (h : trace)
  : result unit * trace * string :=
  let csv_path := category_csv_dir in
  match perform (Makedirs csv_path) h with
  | (Raise e, h1) => (Raise e, h1, csv_path)
  | (Return _, h1) =>
      let csv_fieldname := category_csv_fieldname category_name in
      let csv_path := path_join csv_path csv_fieldname in
      (( _ <~ with_open csv_path "utf-8-sig"
                (first <~ lift (from_option (nth_error data_list 0)
                                  index_out_of_range) ;;
                 _ <~ writeheader csv_path ";" (keys first) ;;
                 writerows csv_path ";" (keys first) data_list) ;;
         print ("[SAUVEGARDE] " ++ str_of_len data_list
                  ++ " livres enregistrés dans : " ++ csv_path)) h1,
       csv_path)
  end.

(** [save_category_to_csv(data_list, category_name)]. *)
Definition save_category_to_csv (data_list : list (dict value))
           (category_name : string) : io unit :=
  match data_list with
  | [] => print "[INFO] Aucun livre à enregistrer."
  | _ :: _ =>
      fun h =>
        match save_category_try data_list category_name h with
        | (Return _, h', _) => (Return tt, h')
        | (Raise e, h', csv_path) => save_category_except csv_path e h'
        end
  end.

End Saver.
End Saver.

(* ================================================================== *)
(** * phase1/scraper.py: the entry point *)
(* ================================================================== *)

Module Phase1Main.
Section Main.
Context {F : PyFloat} {U : Urllib} {R : Requests} {P : HtmlParser}
        {FS : Io.FileSystem} {OS : Os} {D : Today} {C : Cleaner}.

Import Io.

Definition CSV_FOLDER : string := "CSV".

Definition url : string :=
  "https://books.toscrape.com/catalogue/a-light-in-the-attic_1000/index.html".

(** The [except] clause of [main]. *)
Definition report (e : exn) : io unit :=
  print ("[ERREUR] : " ++ exn_msg e).

(** [main()], lines 111-125. *)
Definition main : io unit :=
  try_except
    (soup <~ lift (Phase1.fetch_page url) ;;
     book_data <~ lift (Phase1.extract_book_data soup url) ;;
     _ <~ Saver.save_to_csv book_data CSV_FOLDER ;;
     ret tt)
    is_Exception
    report.

End Main.
End Phase1Main.

(* ================================================================== *)
(** * phase2/scraper_category.py *)
(* ================================================================== *)

Module Phase2.
Section Crawler.
Context {F : PyFloat} {U : Urllib} {R : Requests} {P : HtmlParser}
        {FS : Io.FileSystem} {OS : Os} {D : Today}.

Import Io.

(** [response.raise_for_status()]. *)
Definition raise_for_status (response : response) : result unit :=
  let code := status_code response in
  if (400 <=? code)%Z && (code <? 500)%Z then
    Raise (mk_exn HTTPError
             (str_of_Z code ++ " Client Error: " ++ reason response
                ++ " for url: " ++ response_url response))
  else if (500 <=? code)%Z && (code <? 600)%Z then
    Raise (mk_exn HTTPError
             (str_of_Z code ++ " Server Error: " ++ reason response
                ++ " for url: " ++ response_url response))
  else Return tt.

Definition http_failure (current_url : string) (e : exn) : exn :=
  mk_exn RuntimeError
    ("[ERREUR HTTP] Impossible de récupérer la page " ++ current_url
       ++ " : " ++ exn_msg e).

(** Lines 43-48: the request of one page. *)
Definition get_page (current_url : string) : result response :=
  Py.try_except
    (response <- requests_get current_url ;;
     _ <- raise_for_status response ;;
     Return response)
    is_RequestException
    (fun e => Raise (http_failure current_url e)).

Definition catalogue_root : string := "https://books.toscrape.com/catalogue/".

(** An attribute value on which [.replace] is called. *)
Definition replace_attr (v : attr_value) (old new : string) : result string :=
  match v with
  | AttrStr s => Return (replace s old new)
  | AttrList _ => Raise (list_has_no_attribute "replace")
  end.

(** Lines 57-58: the URL of the detail page of one article. *)
Definition article_url (article : element) : result string :=
  h3 <- from_option (find article "h3" [] None)
          (none_has_no_attribute "find") ;;
  a <- from_option (find h3 "a" [] None) none_not_subscriptable ;;
  href <- getitem a "href" ;;
  relative_url <- replace_attr href "../" EmptyString ;;
  Return (catalogue_root ++ relative_url).

Definition link_warning (current_url : string) (e : exn) : string :=
  "[AVERTISSEMENT] Problème d'extraction d'un lien sur la page : "
    ++ current_url ++ " -> " ++ exn_msg e.

(** Lines 55-61: the [for] loop over the articles of one page. *)
Fixpoint collect (articles : list element) (current_url : string)
         (urls : list string) : io (list string) :=
  match articles with
  | [] => ret urls
  | article :: rest =>
      match article_url article with
      | Return full_url => collect rest current_url (urls ++ [full_url])%list
      | Raise e =>
          _ <~ print (link_warning current_url e) ;;
          collect rest current_url urls
      end
  end.

Definition no_article (current_url : string) : exn :=
  mk_exn RuntimeError
    ("[ERREUR PARSING] Aucun article trouvé sur la page : " ++ current_url).

Definition urljoin_attr (base : string) (v : attr_value) : result string :=
  match v with
  | AttrStr s => Return (urljoin base s)
  | AttrList _ =>
      Raise (mk_exn TypeError "Cannot mix str and non-str arguments")
  end.

(** The variables of the [while] loop. *)
Record loop_state := mk_state {
  urls : list string;
  current_url : string;
  page_number : Z
}.

(** How one turn of the loop ends: at the bottom of the body, ready for the
    next turn, or at [break]. *)
Inductive control :=
| Continue (st : loop_state)
| Break (urls : list string).

(** Lines 43-71: one turn of [while True]. *)
Definition loop_body (st : loop_state) : io control :=
  response <~ lift (get_page (current_url st)) ;;
  let soup := soup_of (BeautifulSoup (response_text response)) in
  let articles := find_all soup "article" [("class", "product_pod")] None in
  match articles with
  | [] => raise (no_article (current_url st))
  | _ :: _ =>
      urls' <~ collect articles (current_url st) (urls st) ;;
      _ <~ print ("Page " ++ str_of_Z (page_number st) ++ " traitée, "
                    ++ str_of_len articles ++ " livres trouvés.") ;;
      match find soup "li" [("class", "next")] None with
      | Some next_li =>
          a <~ lift (from_option (find next_li "a" [] None)
                       none_not_subscriptable) ;;
          next_page <~ lift (getitem a "href") ;;
          next_url <~ lift (urljoin_attr (current_url st) next_page) ;;
          ret (Continue (mk_state urls' next_url (page_number st + 1)))
      | None => ret (Break urls')
      end
  end.

(** [while True: body], run for at most [fuel] turns: [None] when the loop
    is still running after that many turns. *)
Fixpoint while_true (fuel : nat) (st : loop_state) (h : trace)
  : option (result (list string) * trace) :=
  match fuel with
  | O => None
  | S fuel' =>
      match loop_body st h with
      | (Raise e, h') => Some (Raise e, h')
      | (Return (Break urls), h') => Some (Return urls, h')
      | (Return (Continue st'), h') => while_true fuel' st' h'
      end
  end.

(** [fetch_category_urls(category_url, session)]; the session is the
    [Requests] instance. *)
Definition fetch_category_urls (fuel : nat) (category_url : string) (h : trace)
  : option (result (list string) * trace) :=
  while_true fuel (mk_state [] category_url 1) h.

(** The only [except] clause of this module's [save_category_to_csv]. *)
Definition save_category_except (e : exn) : io unit :=
  print ("[ERREUR] Échec lors de l'écriture du fichier CSV : " ++ exn_msg e).

(** [save_category_to_csv(data_list, category_name)], the copy of this
    module (lines 76-108). *)
Definition save_category_to_csv (data_list : list (dict value))
           (category_name : string) : io unit :=
  match data_list with
  | [] => print "[INFO] Aucun livre à enregistrer."
  | _ :: _ =>
      let csv_dir := path_join phase2_dir "CSV" in
      let csv_fieldname :=
        "products_category_" ++ category_name ++ "_" ++ DATE_TODAY ++ ".csv" in
      let csv_path := path_join csv_dir csv_fieldname in
      try_except
        (_ <~ perform (Makedirs csv_dir) ;;
         _ <~ with_open csv_path "utf-8-sig"
                (first <~ lift (from_option (nth_error data_list 0)
                                  index_out_of_range) ;;
                 _ <~ writeheader csv_path ";" (keys first) ;;
                 writerows csv_path ";" (keys first) data_list) ;;
         print ("[SAUVEGARDE] " ++ str_of_len data_list
                  ++ " livres enregistrés dans : CSV/" ++ csv_fieldname))
        is_Exception
        save_category_except
  end.

(** [extract_category_name(url)], lines 111-124. *)
Definition extract_category_name (url : string) : string :=
  match Re.search_category url with
  | Some group1 => capitalize group1
  | None => "Inconnue"
  end.

Definition URL : string :=
  "https://books.toscrape.com/catalogue/category/books/mystery_3/index.html".

Definition book_message (index : Z) (total : nat) (category_name url : string)
  : string :=
  "Scraping du livre " ++ str_of_Z index ++ "/"
    ++ str_of_Z (Z.of_nat total)
    ++ " (Catégorie " ++ category_name ++ ") : " ++ url ++ nl.

Definition book_error (url : string) (e : exn) : string :=
  "Erreur lors du scraping du livre " ++ url ++ " : " ++ exn_msg e ++ nl.

(** Lines 137-144 of [main]: the [for] loop over the URLs; [total] is
    [len(urls)], [index] the position of the first URL of the list. *)
Fixpoint scrape_books (category_name : string) (total : nat) (index : Z)
         (urls : list string) (all_products : list (dict value))
  : io (list (dict value)) :=
  match urls with
  | [] => ret all_products
  | url :: rest =>
      _ <~ print (book_message index total category_name url) ;;
      match (soup <- Phase1.fetch_page url ;;
             Phase1.extract_book_data soup url) with
      | Return product_data =>
          scrape_books category_name total (index + 1) rest
                       (all_products ++ [product_data])%list
      | Raise e =>
          _ <~ print (book_error url e) ;;
          scrape_books category_name total (index + 1) rest all_products
      end
  end.

(** The [except] clause of [main]. *)
Definition report (e : exn) : io unit :=
  print ("[ERREUR] : " ++ exn_msg e).

(** What [main] does once the links are known, lines 134-146. *)
Definition after_crawl (category_name : string) (urls : list string)
  : io unit :=
  _ <~ print (nl ++ "Total des liens récupérés : " ++ str_of_len urls
                ++ "." ++ nl) ;;
  all_products <~ scrape_books category_name (List.length urls) 1 urls [] ;;
  save_category_to_csv all_products category_name.

(** [main()], lines 127-149, its crawl run for at most [fuel] turns: [None]
    when the crawl is still running after that many turns. *)
Definition main (fuel : nat) (h : trace) : option (result unit * trace) :=
  let category_name := extract_category_name URL in
  match print (nl ++ "Début du scraping de la catégorie " ++ category_name
                 ++ "." ++ nl) h with
  | (_, h1) =>
      match fetch_category_urls fuel URL h1 with
      | None => None
      | Some (Raise e, h2) => Some (report e h2)
      | Some (Return urls, h2) =>
          Some (try_except (after_crawl category_name urls)
                           is_Exception report h2)
      end
  end.

End Crawler.
End Phase2.

(* ================================================================== *)
(** * A small world to run the program in *)
(* ================================================================== *)

Module Demo.

(** Floats stood for by their decimal literal. *)
Definition is_decimal (s : string) : bool :=
  negb (Re.is_empty s)
  && Re.all_chars (fun c => is_digit c || Ascii.eqb c "."%char) s.

Definition literal_float : PyFloat := {|
  float := string;
  float_of_str := fun s =>
    if is_decimal s then Return s
    else Raise (mk_exn ValueError
                  ("could not convert string to float: " ++ repr_key s));
  str_of_float := fun x => x
|}.

#[local] Existing Instance literal_float.

(** Joining a relative reference without dot segments: the base up to its
    last slash, then the reference. *)
Fixpoint directory_of (s : string) : string :=
  match s with
  | EmptyString => EmptyString
  | String c r =>
      if existsb (Ascii.eqb "/"%char) (list_ascii_of_string r)
      then String c (directory_of r)
      else if Ascii.eqb c "/"%char then String c EmptyString else EmptyString
  end.

Definition plain_urljoin : Urllib := {|
  urljoin := fun base ref => directory_of base ++ ref
|}.

Definition posix : Os := {|
  path_join := fun a b => a ++ "/" ++ b;
  phase1_dir := "/srv/scraping/phase1";
  utils_dir := "/srv/scraping/utils";
  phase2_dir := "/srv/scraping/phase2"
|}.

Definition a_day : Today := {| DATE_TODAY := "2025-03-14" |}.

Definition underscore_cleaner : @Cleaner literal_float := {|
  clean_filename := fun v =>
    match v with
    | VStr s => Return (replace s " " "_")
    | _ => Raise (mk_exn TypeError "expected string or bytes-like object")
    end
|}.

(** File systems: one on which everything works, one whose disk is full,
    one on which every file is held open by another process. *)
Definition working_fs : @Io.FileSystem literal_float := {|
  Io.fs_raises := fun _ _ => None
|}.


Definition locked_fs : @Io.FileSystem literal_float := {|
  Io.fs_raises := fun _ ev =>
    match ev with
    | Io.OpenWrite _ _ =>
        Some (mk_exn PermissionError "[Errno 13] Permission denied")
    | _ => None
    end
|}.

(** ** Documents *)

Definition el (name : string) (contents : list node) : node :=
  Tag name [] contents.

Definition el_class (name cls : string) (contents : list node) : node :=
  Tag name [("class", AttrList [cls])] contents.

Definition document (body : list node) : node :=
  el "[document]" [el "html" [el "body" body]].

Definition article (href title : string) : node :=
  el_class "article" "product_pod"
    [el "h3" [Tag "a" [("href", AttrStr href); ("title", AttrStr title)]
                  [NavigableString title]]].

Definition pager_next (href : string) : node :=
  el_class "ul" "pager"
    [el_class "li" "next"
       [Tag "a" [("href", AttrStr href)] [NavigableString "next"]]].

Definition listing_page_1 : node :=
  document [ article "../../../sharp-objects_997/index.html" "Sharp Objects";
             article "../../../in-a-dark-dark-wood_963/index.html"
                     "In a Dark, Dark Wood";
             pager_next "page-2.html" ].

Definition listing_page_2 : node :=
  document [ article "../../../the-past-never-ends_942/index.html"
                     "The Past Never Ends" ].

(** A listing whose only page links to itself. *)
Definition looping_page : node :=
  document [ article "../../../sharp-objects_997/index.html" "Sharp Objects";
             pager_next "index.html" ].

Definition row (label cell : string) : node :=
  el "tr" [el "th" [NavigableString label]; el "td" [NavigableString cell]].

Definition product_table (rows : list node) : node :=
  Tag "table" [("class", AttrList ["table"; "table-striped"])] rows.

Definition product_page (rows : list node) (rating : list string) : node :=
  document
    [ el_class "ul" "breadcrumb"
        [el "li" [NavigableString "Home"]; el "li" [NavigableString "Books"];
         el "li" [NavigableString " Poetry "];
         el "li" [NavigableString "A Light in the Attic"]];
      el_class "div" "item"
        [Tag "img" [("src", AttrStr "../../media/cache/fe/72/x.jpg")] []];
      Tag "div" [("class", AttrList ["col-sm-6"; "product_main"])]
        [el "h1" [NavigableString "A Light in the Attic"];
         Tag "p" [("class", AttrList rating)] []];
      Tag "div" [("id", AttrStr "product_description")] [];
      el "p" [NavigableString "Poems and drawings."];
      product_table rows ].

Definition all_rows : list node :=
  [ row "UPC" "a897fe39b1053632";
    row "Price (excl. tax)" "£51.77";
    row "Price (incl. tax)" "£51.77";
    row "Availability" "In stock (22 available)" ].

Definition book_page : node := product_page all_rows ["star-rating"; "Three"].

(** The same page without its [UPC] row. *)
Definition book_page_without_upc : node :=
  product_page (tl all_rows) ["star-rating"; "Three"].

Definition category_url : string :=
  "https://books.toscrape.com/catalogue/category/books/mystery_3/index.html".

Definition category_url_2 : string :=
  "https://books.toscrape.com/catalogue/category/books/mystery_3/page-2.html".

Definition book_url : string :=
  "https://books.toscrape.com/catalogue/a-light-in-the-attic_1000/index.html".

Definition missing_url : string :=
  "https://books.toscrape.com/catalogue/nothing-here/index.html".

(** The parser, on the bodies the demo sites serve. *)
Definition table_parser : HtmlParser := {|
  BeautifulSoup := fun text =>
    if String.eqb text "<listing 1>" then listing_page_1
    else if String.eqb text "<listing 2>" then listing_page_2
    else if String.eqb text "<looping listing>" then looping_page
    else if String.eqb text "<book>" then book_page
    else if String.eqb text "<book without UPC>" then book_page_without_upc
    else document [el "h1" [NavigableString text]]
|}.

Definition ok (url body : string) : result response :=
  Return (mk_response 200 "OK" url body).

(** A site with a two-page category, one book, and an error page for
    everything else. *)
Definition two_page_site : Requests := {|
  requests_get := fun url =>
    if String.eqb url category_url then ok url "<listing 1>"
    else if String.eqb url category_url_2 then ok url "<listing 2>"
    else if String.eqb url book_url then ok url "<book>"
    else Return (mk_response 404 "Not Found" url "404 Not Found")
|}.


(** A network that is down. *)
Definition unreachable_site : Requests := {|
  requests_get := fun url =>
    Raise (mk_exn ConnectionError "Max retries exceeded")
|}.

(** The record read from [book_page]. *)
Definition book_record : dict (@value literal_float) :=
  [ ("product_page_url", VStr book_url);
    ("universal_product_code", VStr "a897fe39b1053632");
    ("title", VStr "A Light in the Attic");
    ("price_including_tax", VFloat "51.77");
    ("price_excluding_tax", VFloat "51.77");
    ("number_available", VInt 22);
    ("product_description", VStr "Poems and drawings.");
    ("category", VStr "Poetry");
    ("review_rating", VInt 3);
    ("image_url",
     VStr "https://books.toscrape.com/media/cache/fe/72/x.jpg") ].

End Demo.

(* ================================================================== *)
(** * Facts about strings and the availability pattern *)
(* ================================================================== *)

Module ReFacts.
Import Re.

Lemma app_assoc_s (a b c : string) : (a ++ b) ++ c = a ++ (b ++ c).
Proof. induction a as [|x a IH]; simpl; [reflexivity | now rewrite IH]. Qed.



(** The first character of [s], if any, is not in the class [p]. *)
Definition stops (p : ascii -> bool) (s : string) : Prop :=
  match s with
  | EmptyString => True
  | String c _ => p c = false
  end.

Lemma span_sound p s a b :
  span p s = (a, b) -> s = a ++ b /\ all_chars p a = true /\ stops p b.
Proof.
  revert a b. induction s as [|c s IH]; simpl; intros a b H.
  - inversion H; subst. simpl. auto.
  - destruct (p c) eqn:Hc.
    + destruct (span p s) as [a' b'] eqn:E. inversion H; subst.
      destruct (IH a' b eq_refl) as (-> & Hall & Hstop).
      simpl. rewrite Hc, Hall. auto.
    + inversion H; subst. simpl. auto.
Qed.

Lemma span_app p a r :
  all_chars p a = true -> stops p r -> span p (a ++ r) = (a, r).
Proof.
  intros Ha Hr. induction a as [|c a IH]; simpl in *.
  - destruct r as [|x r]; simpl in *; [reflexivity | now rewrite Hr].
  - apply andb_true_iff in Ha as [Hc Ha]. rewrite Hc, (IH Ha). reflexivity.
Qed.


Lemma is_empty_false s : is_empty s = false <-> s <> EmptyString.
Proof. destruct s; simpl; split; congruence. Qed.










(** ** [str.replace] *)





Lemma length_app a b :
  String.length (a ++ b) = String.length a + String.length b.
Proof. induction a as [|c a IH]; simpl; [reflexivity | now rewrite IH]. Qed.




End ReFacts.

(* ================================================================== *)
(** * Properties of phase1/scraper.py *)
(* ================================================================== *)

Module Phase1Facts.
Import Phase1 ReFacts.

Section Extraction.
Context {F : PyFloat} {U : Urllib} {R : Requests} {P : HtmlParser}.

(** The key/value table of a product page, as [extract_book_data] finds it. *)
Definition table_of (soup : element) : option element :=
  find soup "table" [("class", "table table-striped")] None.

(** The rating marker of a product page. *)
Definition rating_marker_of (soup : element) : option element :=
  find soup "p" [("class", "star-rating")] None.

Definition required_labels : list string :=
  ["UPC"; "Price (incl. tax)"; "Price (excl. tax)"; "Availability"].

(** The table of [soup] has no header cell whose string is [label]. *)
Definition lacks_row (soup : element) (label : string) : Prop :=
  forall table, table_of soup = Some table ->
                find table "th" [] (Some label) = None.

Definition field_names : list string :=
  ["product_page_url"; "universal_product_code"; "title";
   "price_including_tax"; "price_excluding_tax"; "number_available";
   "product_description"; "category"; "review_rating"; "image_url"].

Lemma get_table_value_lacks soup label :
  lacks_row soup label ->
  exists e, get_table_value (table_of soup) label = Raise e.
Proof.
  intros H. unfold get_table_value. destruct (table_of soup) as [t|] eqn:E.
  - cbn [from_option Py.bind]. rewrite (H t E). eauto.
  - cbn [from_option Py.bind]. eauto.
Qed.

(** One statement of the body: it raised, or the body goes on. *)
Ltac next_statement :=
  match goal with
  | |- exists c, Py.bind ?m _ = Raise c =>
      let E := fresh "E" in
      destruct m eqn:E; cbn [Py.bind];
      [ | eexists; reflexivity ]
  end.

Lemma body_raises_without_row soup url label :
  In label required_labels -> lacks_row soup label ->
  exists cause, extract_book_data_body soup url = Raise cause.
Proof.
  intros Hin Hlacks.
  destruct (get_table_value_lacks soup label Hlacks) as [e He].
  unfold table_of in He. unfold extract_book_data_body.
  simpl in Hin.
  destruct Hin as [<-|[<-|[<-|[<-|[]]]]];
    repeat (next_statement; try congruence).
Qed.

(** What a returned record says about the page it was read from. *)
Lemma returned_record soup url data :
  extract_book_data soup url = Return data ->
  exists availability classes,
    get_table_value (table_of soup) "Availability" = Return availability
    /\ review_rating_classes_of (rating_marker_of soup) = Return classes
    /\ dict_get data "number_available"
       = Some (number_available_of availability)
    /\ dict_get data "review_rating" = Some (VInt (review_rating_of classes))
    /\ keys data = field_names.
Proof.
  unfold extract_book_data, Py.try_except, extract_book_data_body.
  unfold table_of, rating_marker_of.
  repeat match goal with
         | |- context [Py.bind ?m _] =>
             destruct m eqn:?; cbn [Py.bind]; [ | discriminate ]
         end.
  intros H. inversion H; subst data. eexists _, _.
  repeat split; reflexivity.
Qed.





(** C4. When the key/value table of a page lacks one of the four required
    rows, [extract_book_data] raises; whatever it raises is one
    [RuntimeError] whose message is made of the URL and of the message of
    the exception that stopped the body; and a returned record always has
    all ten fields. *)
Theorem extraction_failure_is_single_error soup url :
  (forall label,
      In label required_labels -> lacks_row soup label ->
      exists cause,
        extract_book_data_body soup url = Raise cause
        /\ extract_book_data soup url = Raise (extraction_failure url cause))
  /\ (forall e,
         extract_book_data soup url = Raise e ->
         exists cause,
           extract_book_data_body soup url = Raise cause
           /\ e = extraction_failure url cause
           /\ exn_cls e = RuntimeError
           /\ exn_msg e = "[ERREUR] Échec de l'extraction depuis " ++ url
                            ++ " : " ++ exn_msg cause)
  /\ (forall data,
         extract_book_data soup url = Return data ->
         extract_book_data_body soup url = Return data
         /\ keys data = field_names).
Proof.
  repeat split.
  - intros label Hin Hlacks.
    destruct (body_raises_without_row soup url label Hin Hlacks) as [c Hc].
    exists c. split; [exact Hc|].
    unfold extract_book_data, Py.try_except. now rewrite Hc.
  - intros e. unfold extract_book_data, Py.try_except.
    destruct (extract_book_data_body soup url) as [d|c]; [discriminate|].
    cbn [is_Exception]. intros H; inversion H; subst e.
    exists c. repeat split.
  - revert H. unfold extract_book_data, Py.try_except.
    destruct (extract_book_data_body soup url) as [d|c]; [auto|].
    cbn [is_Exception]. discriminate.
  - destruct (returned_record soup url data H) as (_ & _ & _ & _ & _ & _ & K).
    exact K.
Qed.

(** C9, first half. [fetch_page] looks at no status code: whatever response
    the transport delivers, it returns the parsed body; it raises its
    wrapped error, carrying the URL and the cause, exactly when the request
    raised a [RequestException]; any other exception passes through. *)
Lemma fetch_page_cases url :
  match requests_get url with
  | Return response =>
      fetch_page url
      = Return (soup_of (BeautifulSoup (response_text response)))
  | Raise e =>
      if is_RequestException e
      then fetch_page url = Raise (fetch_failure url e)
      else fetch_page url = Raise e
  end.
Proof.
  unfold fetch_page, Py.try_except.
  destruct (requests_get url) as [r|e]; cbn [Py.bind]; [reflexivity|].
  destruct (is_RequestException e); reflexivity.
Qed.

End Extraction.
End Phase1Facts.

(* ================================================================== *)
(** * Properties of phase2/scraper_category.py *)
(* ================================================================== *)

Module Phase2Facts.
Import Phase2 Io.

Section Crawl.
Context {F : PyFloat} {U : Urllib} {R : Requests} {P : HtmlParser}.

(** The parsed page of a response, and what the loop reads on it. *)
Definition page_of (response : response) : element :=
  soup_of (BeautifulSoup (response_text response)).











(** ** One turn of the loop *)




(** ** The whole crawl *)





(** ** Termination *)










(** ** The shape of the returned URLs *)







(** C9. [fetch_page] performs no status check: whatever response the
    transport delivers, it returns the parsed body; it raises its wrapped
    error, made of the URL and of the cause, exactly when the request raised
    a [RequestException], and lets any other exception through.  On a
    response whose status is in 400..599 it therefore returns the parsed
    error page, where the request of the crawler raises. *)
Theorem fetch_page_ignores_status url :
  match requests_get url with
  | Return response =>
      Phase1.fetch_page url = Return (page_of response)
  | Raise e =>
      if is_RequestException e
      then Phase1.fetch_page url = Raise (Phase1.fetch_failure url e)
           /\ exn_cls (Phase1.fetch_failure url e) = RuntimeError
           /\ exn_msg (Phase1.fetch_failure url e)
              = "[ERREUR] Echec lors de la récupération de l'URL : " ++ url
                  ++ nl ++ "-> " ++ exn_msg e
      else Phase1.fetch_page url = Raise e
  end
  /\ forall response,
      requests_get url = Return response ->
      (400 <= status_code response < 600)%Z ->
      Phase1.fetch_page url = Return (page_of response)
      /\ exists e, exn_cls e = HTTPError
                   /\ get_page url = Raise (http_failure url e).
Proof.
  split.
  - pose proof (Phase1Facts.fetch_page_cases url) as H.
    destruct (requests_get url) as [r|e]; [exact H|].
    destruct (is_RequestException e); [|exact H].
    repeat split. exact H.
  - intros response G Hs.
    pose proof (Phase1Facts.fetch_page_cases url) as H. rewrite G in H.
    split; [exact H|].
    unfold get_page, Py.try_except. rewrite G. cbn [Py.bind].
    unfold raise_for_status.
    destruct ((400 <=? status_code response)%Z
              && (status_code response <? 500)%Z) eqn:T1.
    + cbn [Py.bind is_RequestException exn_cls]. eexists. split; [|reflexivity].
      reflexivity.
    + destruct ((500 <=? status_code response)%Z
                && (status_code response <? 600)%Z) eqn:T2.
      * cbn [Py.bind is_RequestException exn_cls].
        eexists. split; [|reflexivity]. reflexivity.
      * exfalso. apply andb_false_iff in T1, T2. lia.
Qed.

End Crawl.
End Phase2Facts.

(* ================================================================== *)
(** * Properties of the writers *)
(* ================================================================== *)

Module SaverFacts.
Import Io.

Section Writers.
Context {F : PyFloat} {FS : FileSystem} {OS : Os} {D : Today} {C : Cleaner}.

(** Every key of a dictionary is one of its keys: [writerow] with the
    dictionary's own keys as field names accepts the dictionary. *)
Lemma no_wrong_field (d : dict value) (fieldnames : list string) :
  incl (keys d) fieldnames ->
  filter (fun k => negb (existsb (String.eqb k) fieldnames)) (keys d) = [].
Proof.
  induction (keys d) as [|k l IH]; intros Hincl; [reflexivity|].
  cbn [filter].
  assert (E : existsb (String.eqb k) fieldnames = true).
  { apply existsb_exists. exists k. split; [|apply String.eqb_refl].
    apply Hincl. now left. }
  rewrite E. cbn [negb]. apply IH. intros x Hx. apply Hincl. now right.
Qed.

Lemma dict_to_list_own_keys (d : dict value) :
  exists cells, dict_to_list (keys d) d = Return cells.
Proof.
  unfold dict_to_list. rewrite no_wrong_field by apply incl_refl. eauto.
Qed.

(** C6. Given an empty list of records, [save_category_to_csv] (the one of
    [utils/saver.py] and the copy of [phase2/scraper_category.py]) returns
    after one event, the informational message: no directory is made, no
    file is opened, no row is written. *)
Theorem empty_list_only_prints category_name h :
  Saver.save_category_to_csv [] category_name h
  = (Return tt, (h ++ [Print "[INFO] Aucun livre à enregistrer."])%list)
  /\ Phase2.save_category_to_csv [] category_name h
     = (Return tt, (h ++ [Print "[INFO] Aucun livre à enregistrer."])%list).
Proof. split; reflexivity. Qed.

(** The message of the second [except] clause of each writer. *)
Definition generic_failure_single (e : exn) : event :=
  Print ("[ERREUR] Impossible d'enregistrer le fichier CSV :" ++ nl
           ++ "-> " ++ exn_msg e).

Definition generic_failure_category (e : exn) : event :=
  Print ("[ERREUR] Échec lors de l'écriture du fichier CSV : " ++ exn_msg e).

(** The target of the single-record writer, once the title is cleaned. *)
Definition single_dir (folder : string) : string := path_join phase1_dir folder.


Definition category_file (category_name : string) : string :=
  path_join Saver.category_csv_dir (Saver.category_csv_fieldname category_name).





End Writers.
End SaverFacts.

(* ================================================================== *)
(** * The properties at work on the small world *)
(* ================================================================== *)

Module Runs.
Import Demo Io.

#[local] Existing Instance literal_float.
#[local] Existing Instance plain_urljoin.
#[local] Existing Instance table_parser.
#[local] Existing Instance posix.
#[local] Existing Instance a_day.
#[local] Existing Instance underscore_cleaner.

(** ** phase1 *)





Lemma extraction_failure_is_single_error_witness :
  Phase1Facts.lacks_row (soup_of book_page_without_upc) "UPC"
  /\ exists cause,
      Phase1.extract_book_data_body (soup_of book_page_without_upc) book_url
      = Raise cause
      /\ Phase1.extract_book_data (soup_of book_page_without_upc) book_url
         = Raise (Phase1.extraction_failure book_url cause).
Proof.
  assert (L : Phase1Facts.lacks_row (soup_of book_page_without_upc) "UPC").
  { intros table H. vm_compute in H. injection H as <-. vm_compute.
    reflexivity. }
  split; [exact L|].
  destruct (Phase1Facts.extraction_failure_is_single_error
              (F := literal_float) (U := plain_urljoin)
              (soup_of book_page_without_upc) book_url) as (Hrow & _).
  apply (Hrow "UPC"); [now left | exact L].
Defined.

Example missing_upc_message :
  Phase1.extract_book_data (soup_of book_page_without_upc) book_url
  = Raise (mk_exn RuntimeError
             ("[ERREUR] Échec de l'extraction depuis " ++ book_url
                ++ " : [ERREUR] champ 'UPC' introuvable dans le tableau")).
Proof. vm_compute. reflexivity. Qed.

(** ** phase2 *)


Definition three_urls : list string :=
  [ "https://books.toscrape.com/catalogue/sharp-objects_997/index.html";
    "https://books.toscrape.com/catalogue/in-a-dark-dark-wood_963/index.html";
    "https://books.toscrape.com/catalogue/the-past-never-ends_942/index.html" ].



Example two_page_crawl :
  Phase2.fetch_category_urls (R := two_page_site) 2 category_url []
  = Some (Return three_urls,
          [ Print "Page 1 traitée, 2 livres trouvés.";
            Print "Page 2 traitée, 1 livres trouvés." ]).
Proof. vm_compute. reflexivity. Qed.




Lemma fetch_page_ignores_status_witness :
  Phase1.fetch_page (R := two_page_site) missing_url
  = Return (soup_of (document [el "h1" [NavigableString "404 Not Found"]]))
  /\ exists e,
      exn_cls e = HTTPError
      /\ Phase2.get_page (R := two_page_site) missing_url
         = Raise (Phase2.http_failure missing_url e).
Proof.
  destruct (Phase2Facts.fetch_page_ignores_status
              (R := two_page_site) missing_url) as [_ H].
  apply (H (mk_response 404 "Not Found" missing_url "404 Not Found")).
  - reflexivity.
  - cbn [status_code]. lia.
Defined.

Example unreachable_site_wrapped :
  Phase1.fetch_page (R := unreachable_site) book_url
  = Raise (Phase1.fetch_failure book_url
             (mk_exn ConnectionError "Max retries exceeded")).
Proof. reflexivity. Qed.

(** ** The writers *)




(** The copy of the category writer in phase2 has one [except] clause: a
    locked file is printed like any other failure. *)
Example phase2_copy_prints_lock :
  Phase2.save_category_to_csv (FS := locked_fs) [book_record] "Mystery" []
  = (Return tt,
     [ Makedirs "/srv/scraping/phase2/CSV";
       Print ("[ERREUR] Échec lors de l'écriture du fichier CSV : "
                ++ "[Errno 13] Permission denied") ]).
Proof. reflexivity. Qed.

End Runs.

(* ================================================================== *)
(** * Further properties: the category name *)
(* ================================================================== *)

Module CategoryNameFacts.
Import Re ReFacts.

Lemma strip_prefix_app p r : strip_prefix p (p ++ r) = Some r.
Proof.
  induction p as [|a p IH]; [reflexivity|].
  simpl. now rewrite Ascii.eqb_refl.
Qed.

Lemma strip_prefix_sound p : forall s r,
  strip_prefix p s = Some r -> s = p ++ r.
Proof.
  induction p as [|a p IH]; intros s r H; simpl in H.
  - now inversion H.
  - destruct s as [|b s]; [discriminate|].
    destruct (Ascii.eqb_spec a b) as [->|_]; [|discriminate].
    simpl. now rewrite (IH s r H).
Qed.

(** The deterministic matcher decides the category pattern. *)
Lemma match_category_iff s g :
  match_category s = Some g <-> category_at_start s g.
Proof.
  unfold match_category, category_at_start. split.
  - destruct (strip_prefix "/books/" s) as [r|] eqn:E0; [|discriminate].
    apply strip_prefix_sound in E0. subst s.
    destruct (span not_underscore r) as [name r1] eqn:E1.
    destruct (strip_prefix "_" r1) as [r2|] eqn:E2; [|discriminate].
    apply strip_prefix_sound in E2. subst r1.
    destruct (span is_digit r2) as [ds r3] eqn:E3.
    destruct (strip_prefix "/" r3) as [rest|] eqn:E4; [|discriminate].
    apply strip_prefix_sound in E4. subst r3.
    destruct (negb (is_empty name) && negb (is_empty ds)) eqn:T;
      [|discriminate].
    intros H; inversion H; subst g; clear H.
    apply andb_true_iff in T as [T1 T2].
    apply negb_true_iff, is_empty_false in T1, T2.
    apply span_sound in E1 as (-> & Hn & _).
    apply span_sound in E3 as (-> & Hd & _).
    exists ds, rest. repeat split; auto.
  - intros (ds & rest & -> & Hg & Ng & Hds & Dds).
    rewrite strip_prefix_app.
    rewrite (span_app not_underscore g ("_" ++ ds ++ "/" ++ rest) Ng eq_refl).
    rewrite (strip_prefix_app "_").
    rewrite (span_app is_digit ds ("/" ++ rest) Dds eq_refl).
    rewrite (strip_prefix_app "/").
    apply is_empty_false in Hg, Hds. rewrite Hg, Hds. reflexivity.
Qed.

(** ** The leftmost match, for any pattern *)

Section Search.
Variable matcher : string -> option string.
Variable at_start : string -> string -> Prop.
Hypothesis matcher_iff : forall s g, matcher s = Some g <-> at_start s g.

(** [tail] is where the leftmost match in [s] starts; [g] is its group. *)
Definition leftmost (s pre tail g : string) : Prop :=
  s = pre ++ tail
  /\ at_start tail g
  /\ forall pre' tail' g',
      s = pre' ++ tail' -> String.length pre' < String.length pre ->
      ~ at_start tail' g'.


Lemma search_first_eq s :
  search_first matcher s =
  match matcher s with
  | Some g => Some g
  | None => match s with
            | EmptyString => None
            | String _ r => search_first matcher r
            end
  end.
Proof. destruct s; reflexivity. Qed.

Lemma search_first_some s g :
  search_first matcher s = Some g <-> exists pre tail, leftmost s pre tail g.
Proof.
  split.
  - induction s as [|c s IH]; rewrite search_first_eq.
    + destruct (matcher EmptyString) as [g'|] eqn:E; [|discriminate].
      intros H; inversion H; subst g'.
      exists EmptyString, EmptyString. split; [reflexivity|].
      split; [now apply matcher_iff|]. simpl. intros; lia.
    + destruct (matcher (String c s)) as [g'|] eqn:E.
      * intros H; inversion H; subst g'. exists EmptyString, (String c s).
        split; [reflexivity|]. split; [now apply matcher_iff|].
        simpl. intros; lia.
      * intros H. destruct (IH H) as (pre & tail & -> & M & Hmin).
        exists (String c pre), tail. split; [reflexivity|]. split; [exact M|].
        intros pre' tail' g' Heq Hlen. destruct pre' as [|c' pre'].
        -- simpl in Heq. subst tail'. intros M'.
           apply matcher_iff in M'. congruence.
        -- simpl in Heq. inversion Heq; subst c'. simpl in Hlen.
           apply (Hmin pre' tail' g'); [assumption | lia].
  - intros (pre & tail & -> & M & Hmin). induction pre as [|c pre IH].
    + simpl. rewrite search_first_eq. apply matcher_iff in M. now rewrite M.
    + rewrite search_first_eq.
      destruct (matcher (String c pre ++ tail)) as [g'|] eqn:E.
      * apply matcher_iff in E.
        elim (Hmin EmptyString (String c pre ++ tail) g' eq_refl); simpl; auto.
        lia.
      * simpl. apply IH. intros pre' tail' g' Heq Hlen.
        apply (Hmin (String c pre') tail' g'); simpl; [now rewrite Heq | lia].
Qed.


End Search.

(** ** Case changes leave the underscore alone *)

Lemma upper_not_underscore c :
  not_underscore c = true -> not_underscore (upper c) = true.
Proof. destruct c as [[] [] [] [] [] [] [] []]; vm_compute; congruence. Qed.

Lemma lower_not_underscore c :
  not_underscore c = true -> not_underscore (lower c) = true.
Proof. destruct c as [[] [] [] [] [] [] [] []]; vm_compute; congruence. Qed.

Lemma capitalize_not_underscore g :
  all_chars not_underscore g = true ->
  all_chars not_underscore (capitalize g) = true.
Proof.
  destruct g as [|c r]; [reflexivity|]. simpl. intros H.
  apply andb_true_iff in H as [Hc Hr]. rewrite (upper_not_underscore c Hc).
  simpl. induction r as [|d r IH]; [reflexivity|]. simpl in *.
  apply andb_true_iff in Hr as [Hd Hr].
  now rewrite (lower_not_underscore d Hd), IH.
Qed.


(** X2. Whatever the URL, the name [extract_category_name] returns is not
    empty and holds no underscore. *)
Theorem extract_category_name_plain url :
  Phase2.extract_category_name url <> EmptyString
  /\ all_chars not_underscore (Phase2.extract_category_name url) = true.
Proof.
  unfold Phase2.extract_category_name, search_category.
  destruct (search_first match_category url) as [g|] eqn:E.
  - apply (search_first_some _ _ match_category_iff) in E
      as (pre & tail & _ & (ds & rest & _ & Hg & Ng & _) & _).
    split; [|now apply capitalize_not_underscore].
    destruct g; [congruence | discriminate].
  - split; [discriminate | reflexivity].
Qed.

End CategoryNameFacts.

(* ================================================================== *)
(** * Further properties: the key/value table *)
(* ================================================================== *)

Module TableFacts.
Import Phase1.

(** The descendants of a list of sibling nodes, in document order. *)
Fixpoint walk (l : list node) : list element :=
  match l with
  | [] => []
  | c :: r => mk_element c r :: (descendants c ++ walk r)%list
  end.

Lemma descendants_tag name attrs cs : descendants (Tag name attrs cs) = walk cs.
Proof.
  cbn [descendants]. induction cs as [|c r IH]; [reflexivity|].
  cbn [walk]. now rewrite <- IH.
Qed.

Lemma find_app_list {A} (p : A -> bool) l1 l2 :
  List.find p (l1 ++ l2)%list
  = match List.find p l1 with
    | Some x => Some x
    | None => List.find p l2
    end.
Proof.
  induction l1 as [|a l1 IH]; [reflexivity|].
  simpl. destruct (p a); [reflexivity | exact IH].
Qed.

Definition texts (l : list string) : list node := map NavigableString l.

Section Find.
Variable p : element -> bool.
Hypothesis p_text : forall s sibs, p (mk_element (NavigableString s) sibs) = false.

Lemma find_walk_texts l rest :
  List.find p (walk (texts l ++ rest)%list) = List.find p (walk rest).
Proof.
  induction l as [|s l IH]; [reflexivity|].
  cbn [texts map app walk List.find descendants]. rewrite p_text.
  exact IH.
Qed.

Lemma find_walk_texts_only l : List.find p (walk (texts l)) = None.
Proof.
  rewrite <- (app_nil_r (texts l)). now rewrite find_walk_texts.
Qed.

End Find.

(** A row of the table: a header cell holding [label], a data cell holding
    [cell], the text nodes around them, and whatever attributes. *)
Record row := mk_row {
  label : string;
  cell : string;
  before : list string;
  between : list string;
  after : list string;
  tr_attrs : dict attr_value;
  th_attrs : dict attr_value;
  td_attrs : dict attr_value
}.

Definition th_node (r : row) : node :=
  Tag "th" (th_attrs r) [NavigableString (label r)].

Definition td_node (r : row) : node :=
  Tag "td" (td_attrs r) [NavigableString (cell r)].

Definition row_node (r : row) : node :=
  Tag "tr" (tr_attrs r)
      (texts (before r)
         ++ th_node r :: texts (between r) ++ td_node r :: texts (after r))%list.

(** The children of the table: rows, and text between them. *)
Inductive item :=
| Gap (s : string)
| Row (r : row).

Definition item_node (i : item) : node :=
  match i with
  | Gap s => NavigableString s
  | Row r => row_node r
  end.

Definition table_node (attrs : dict attr_value) (items : list item) : node :=
  Tag "table" attrs (map item_node items).

(** The cell of the first row whose header is [key]. *)
Fixpoint lookup (items : list item) (key : string) : option string :=
  match items with
  | [] => None
  | Gap _ :: rest => lookup rest key
  | Row r :: rest =>
      if String.eqb (label r) key then Some (cell r) else lookup rest key
  end.

Definition is_header (key : string) (d : element) : bool :=
  matches "th" [] (Some key) (here d).

Lemma is_header_text key s sibs :
  is_header key (mk_element (NavigableString s) sibs) = false.
Proof. reflexivity. Qed.

Lemma first_sibling_texts name l rest :
  first_sibling name (texts l ++ rest)%list = first_sibling name rest.
Proof. induction l as [|s l IH]; [reflexivity | exact IH]. Qed.

Lemma append_empty s : s ++ EmptyString = s.
Proof. induction s as [|c s IH]; simpl; [reflexivity | now rewrite IH]. Qed.

(** The search for the header inside one row. *)
Lemma find_in_row key r :
  key <> EmptyString ->
  List.find (is_header key) (descendants (row_node r))
  = if String.eqb (label r) key
    then Some (mk_element (th_node r)
                 (texts (between r) ++ td_node r :: texts (after r))%list)
    else None.
Proof.
  intros Hkey. unfold row_node. rewrite descendants_tag.
  rewrite (find_walk_texts _ (is_header_text key)).
  cbn [walk List.find].
  assert (E : forall sibs,
             is_header key (mk_element (th_node r) sibs)
             = String.eqb (label r) key).
  { intros sibs. unfold is_header, matches, th_node.
    cbn [here is_tag forallb string_of matches_str].
    apply String.eqb_neq in Hkey. rewrite Hkey. reflexivity. }
  rewrite E. destruct (String.eqb (label r) key); [reflexivity|].
  rewrite find_app_list. unfold th_node at 1. rewrite descendants_tag.
  cbn [walk List.find descendants app]. rewrite is_header_text.
  rewrite (find_walk_texts _ (is_header_text key)).
  cbn [walk List.find].
  assert (E' : forall sibs, is_header key (mk_element (td_node r) sibs) = false)
    by reflexivity.
  rewrite E', find_app_list. unfold td_node at 1. rewrite descendants_tag.
  cbn [walk List.find descendants app]. rewrite is_header_text.
  apply (find_walk_texts_only _ (is_header_text key)).
Qed.

Lemma find_in_items key items :
  key <> EmptyString ->
  match List.find (is_header key) (walk (map item_node items)) with
  | Some th =>
      exists r, lookup items key = Some (cell r)
                /\ th = mk_element (th_node r)
                          (texts (between r) ++ td_node r :: texts (after r))%list
  | None => lookup items key = None
  end.
Proof.
  intros Hkey. induction items as [|[s|r] rest IH].
  - reflexivity.
  - cbn [map item_node walk List.find descendants app lookup].
    rewrite is_header_text. exact IH.
  - cbn [map item_node walk List.find lookup].
    assert (E : is_header key (mk_element (row_node r) (map item_node rest))
                = false) by reflexivity.
    rewrite E, find_app_list, (find_in_row key r Hkey).
    destruct (String.eqb (label r) key); [|exact IH].
    exists r. split; reflexivity.
Qed.

Lemma first_sibling_td r rest :
  first_sibling "td" (td_node r :: rest)
  = Some (mk_element (td_node r) rest).
Proof. reflexivity. Qed.

Lemma text_td r rest : text (mk_element (td_node r) rest) = cell r.
Proof. unfold text, td_node. cbn [here text_of]. apply append_empty. Qed.

Definition missing_label (key : string) : exn :=
  mk_exn ValueError ("[ERREUR] champ '" ++ key ++ "' introuvable dans le tableau").

(** X3. On a table made of rows (a header cell, a data cell, text around
    them) and text between the rows, [get_table_value] returns the data
    cell of the first row whose header is the label, and raises the
    [ValueError] naming the label when no row has it. *)
Theorem get_table_value_is_lookup attrs items sibs key :
  key <> EmptyString ->
  get_table_value (Some (mk_element (table_node attrs items) sibs)) key
  = match lookup items key with
    | Some c => Return c
    | None => Raise (missing_label key)
    end.
Proof.
  intros Hkey. unfold get_table_value. cbn [from_option Py.bind].
  unfold find. cbn [here]. unfold table_node. rewrite descendants_tag.
  fold (is_header key).
  change (fun d : element => matches "th" [] (Some key) (here d))
    with (is_header key).
  pose proof (find_in_items key items Hkey) as H.
  destruct (List.find (is_header key) (walk (map item_node items)))
    as [th|].
  - destruct H as (r & -> & ->). unfold find_next_sibling.
    cbn [next_siblings]. rewrite first_sibling_texts, first_sibling_td.
    now rewrite text_td.
  - rewrite H. reflexivity.
Qed.

End TableFacts.

(* ================================================================== *)
(** * Further properties: the extracted record *)
(* ================================================================== *)

Module RecordFacts.
Import Phase1 Re ReFacts.

(** ** [str.strip] *)







Section Record.
Context {F : PyFloat} {U : Urllib}.








End Record.
End RecordFacts.

(* ================================================================== *)
(** * Further properties: the crawl *)
(* ================================================================== *)

Module CrawlFacts.
Import Phase2 Io Phase2Facts.

Section Crawl.
Context {F : PyFloat} {U : Urllib} {R : Requests} {P : HtmlParser}.

(** X6. The request of the crawler hands a response back exactly when the
    transport delivered it with a status outside 400..599 (a 1xx, 2xx or
    3xx status is taken as a page); a response with a status in 400..599
    and a [RequestException] both become the [RuntimeError] naming the
    page, and any other exception passes through. *)
Theorem get_page_accepts url :
  (forall response,
      get_page url = Return response
      <-> requests_get url = Return response
          /\ ~ (400 <= status_code response < 600)%Z)
  /\ (forall e,
         get_page url = Raise e ->
         (exists cause, e = http_failure url cause
                        /\ is_RequestException cause = true)
         \/ (requests_get url = Raise e /\ is_RequestException e = false)).
Proof.
  unfold get_page, Py.try_except, raise_for_status. split.
  - intros response. destruct (requests_get url) as [r|e0]; cbn [Py.bind].
    + destruct ((400 <=? status_code r)%Z && (status_code r <? 500)%Z) eqn:T1;
        [|destruct ((500 <=? status_code r)%Z && (status_code r <? 600)%Z)
            eqn:T2]; cbn [Py.bind is_RequestException exn_cls].
      * apply andb_true_iff in T1 as [A B].
        apply Z.leb_le in A. apply Z.ltb_lt in B.
        split; [discriminate|]. intros [E N]. inversion E; subst. lia.
      * apply andb_true_iff in T2 as [A B].
        apply Z.leb_le in A. apply Z.ltb_lt in B.
        split; [discriminate|]. intros [E N]. inversion E; subst. lia.
      * apply andb_false_iff in T1, T2.
        rewrite Z.leb_gt, Z.ltb_ge in T1, T2.
        split; [intros E; inversion E; subst; split; [reflexivity|lia]
               |intros [E _]; exact E].
    + destruct (is_RequestException e0); split; try discriminate;
        intros [E _]; discriminate.
  - intros e. destruct (requests_get url) as [r|e0]; cbn [Py.bind].
    + destruct ((400 <=? status_code r)%Z && (status_code r <? 500)%Z);
        [|destruct ((500 <=? status_code r)%Z && (status_code r <? 600)%Z)];
        cbn [Py.bind is_RequestException exn_cls]; try discriminate;
        intros E; inversion E; left; eexists; split; reflexivity.
    + destruct (is_RequestException e0) eqn:T; intros E; inversion E; subst.
      * left. eauto.
      * right. auto.
Qed.












End Crawl.
End CrawlFacts.

(* ================================================================== *)
(** * Further properties: the writers *)
(* ================================================================== *)

Module WriterFacts.
Import Io SaverFacts.

Section Writers.
Context {F : PyFloat} {FS : FileSystem} {OS : Os} {D : Today} {C : Cleaner}.

(** The cells [writerow] writes for [rowdict] under [fieldnames]: the
    value of each field, the empty string for a field the row lacks. *)
Definition row_cells (fieldnames : list string) (rowdict : dict value)
  : list value :=
  map (fun k => match dict_get rowdict k with
                | Some v => v
                | None => VStr EmptyString
                end) fieldnames.

(** No operation on the file system raises. *)
Definition never_raises : Prop := forall h ev, fs_raises h ev = None.

Lemma perform_ok (Hfs : never_raises) ev h :
  perform ev h = (Return tt, (h ++ [ev])%list).
Proof. unfold perform. now rewrite Hfs. Qed.

Lemma writerow_ok (Hfs : never_raises) path fieldnames d h :
  incl (keys d) fieldnames ->
  writerow path ";" fieldnames d h
  = (Return tt, (h ++ [WriteRow path ";" (row_cells fieldnames d)])%list).
Proof.
  intros Hincl. unfold writerow, Io.bind, lift, dict_to_list.
  rewrite (no_wrong_field d fieldnames Hincl). fold (row_cells fieldnames d).
  now rewrite perform_ok.
Qed.

Lemma writerows_ok (Hfs : never_raises) path fieldnames rows : forall h,
  Forall (fun d => incl (keys d) fieldnames) rows ->
  writerows path ";" fieldnames rows h
  = (Return tt,
     (h ++ map (fun d => WriteRow path ";" (row_cells fieldnames d)) rows)%list).
Proof.
  induction rows as [|d rows IH]; intros h Hall.
  - cbn [writerows map]. unfold ret. now rewrite app_nil_r.
  - inversion Hall as [|? ? Hd Hrest]; subst.
    cbn [writerows map]. unfold Io.bind.
    rewrite (writerow_ok Hfs _ _ _ _ Hd), (IH _ Hrest), <- app_assoc.
    reflexivity.
Qed.

Definition saved_message (data_list : list (dict value)) (where_ : string)
  : event :=
  Print ("[SAUVEGARDE] " ++ str_of_len data_list
           ++ " livres enregistrés dans : " ++ where_).

(** The events of a category file written in full. *)
Definition category_events (csv_dir csv_path : string)
           (first : dict value) (data_list : list (dict value))
           (last : event) : trace :=
  ([ Makedirs csv_dir;
     OpenWrite csv_path "utf-8-sig";
     WriteRow csv_path ";" (map VStr (keys first)) ]
     ++ map (fun d => WriteRow csv_path ";" (row_cells (keys first) d))
            data_list
     ++ [ Close csv_path; last ])%list.

(** X10. When no file operation raises and no record has a field the first
    record lacks, the category writer (either copy) makes its [CSV]
    directory, opens the file named after the category and the date,
    writes the field names of the first record, then one row per record in
    the order of the list (an absent field as the empty string), closes the
    file and prints the count. *)
Theorem category_file_written first rest category_name h :
  never_raises ->
  Forall (fun d => incl (keys d) (keys first)) rest ->
  let data_list := first :: rest in
  let fieldname := Saver.category_csv_fieldname category_name in
  Saver.save_category_to_csv data_list category_name h
  = (Return tt,
     (h ++ category_events Saver.category_csv_dir (category_file category_name)
             first data_list
             (saved_message data_list (category_file category_name)))%list)
  /\ Phase2.save_category_to_csv data_list category_name h
     = (Return tt,
        (h ++ category_events (path_join phase2_dir "CSV")
                (path_join (path_join phase2_dir "CSV") fieldname)
                first data_list
                (saved_message data_list ("CSV/" ++ fieldname)))%list).
Proof.
  intros Hfs Hrest data_list fieldname.
  assert (Hall : Forall (fun d => incl (keys d) (keys first)) data_list).
  { constructor; [apply incl_refl | exact Hrest]. }
  split.
  - unfold Saver.save_category_to_csv, data_list, Saver.save_category_try.
    rewrite (perform_ok Hfs). fold data_list.
    fold (category_file category_name).
    unfold Io.bind at 1, with_open. rewrite (perform_ok Hfs).
    unfold Io.bind at 1, lift at 1. cbn [nth_error data_list from_option].
    unfold Io.bind at 1, writeheader. rewrite (perform_ok Hfs).
    fold data_list. rewrite (writerows_ok Hfs _ _ _ _ Hall).
    rewrite (perform_ok Hfs). unfold print, category_events, saved_message.
    rewrite <- !app_assoc. reflexivity.
  - unfold Phase2.save_category_to_csv, data_list, try_except.
    fold data_list. fold fieldname.
    unfold Io.bind at 1. rewrite (perform_ok Hfs).
    unfold Io.bind at 1, with_open. rewrite (perform_ok Hfs).
    unfold Io.bind at 1, lift at 1. cbn [nth_error data_list from_option].
    unfold Io.bind at 1, writeheader. rewrite (perform_ok Hfs).
    fold data_list. rewrite (writerows_ok Hfs _ _ _ _ Hall).
    rewrite (perform_ok Hfs). unfold print, category_events, saved_message.
    unfold Saver.category_csv_fieldname in fieldname. fold fieldname.
    rewrite <- !app_assoc. reflexivity.
Qed.

(** A row with a field outside [fieldnames] is refused before anything is
    written. *)
Lemma writerow_refused path fieldnames d k h :
  In k (keys d) -> ~ In k fieldnames ->
  exists msg,
    writerow path ";" fieldnames d h = (Raise (mk_exn ValueError msg), h).
Proof.
  intros Hk Hnot. unfold writerow, Io.bind, lift, dict_to_list.
  destruct (filter (fun k0 => negb (existsb (String.eqb k0) fieldnames))
                   (keys d)) as [|w ws] eqn:E.
  - exfalso.
    assert (Hin : In k (filter (fun k0 => negb (existsb (String.eqb k0)
                                                  fieldnames)) (keys d))).
    { apply filter_In. split; [exact Hk|]. apply negb_true_iff.
      destruct (existsb (String.eqb k) fieldnames) eqn:X; [|reflexivity].
      apply existsb_exists in X as (x & Hx & Hxk).
      apply String.eqb_eq in Hxk. subst x. contradiction. }
    rewrite E in Hin. destruct Hin.
  - eauto.
Qed.

Lemma writerows_refused (Hfs : never_raises) path fieldnames good bad rest k :
  forall h,
    Forall (fun d => incl (keys d) fieldnames) good ->
    In k (keys bad) -> ~ In k fieldnames ->
    exists msg,
      writerows path ";" fieldnames (good ++ bad :: rest)%list h
      = (Raise (mk_exn ValueError msg),
         (h ++ map (fun d => WriteRow path ";" (row_cells fieldnames d))
                   good)%list).
Proof.
  induction good as [|d good IH]; intros h Hgood Hk Hnot.
  - cbn [app writerows map]. unfold Io.bind.
    destruct (writerow_refused path fieldnames bad k h Hk Hnot) as [msg ->].
    exists msg. now rewrite app_nil_r.
  - inversion Hgood as [|? ? Hd Hrest]; subst.
    cbn [app writerows map]. unfold Io.bind.
    rewrite (writerow_ok Hfs _ _ _ _ Hd).
    destruct (IH (h ++ [WriteRow path ";" (row_cells fieldnames d)])%list
                 Hrest Hk Hnot) as [msg ->].
    exists msg. now rewrite <- app_assoc.
Qed.

(** X11. A record with a field the first record lacks stops the category
    writer of [utils/saver.py] in the middle of the file: the header and
    the rows of the records before it are written, the file is closed, the
    failure is printed and the writer returns normally; the offending
    record and those after it are not written. *)
Theorem extra_field_leaves_partial_file
        first good bad rest k category_name h :
  never_raises ->
  Forall (fun d => incl (keys d) (keys first)) good ->
  In k (keys bad) -> ~ In k (keys first) ->
  let csv_path := category_file category_name in
  exists msg,
    Saver.save_category_to_csv (first :: good ++ bad :: rest)%list
                               category_name h
    = (Return tt,
       (h ++ [ Makedirs Saver.category_csv_dir;
               OpenWrite csv_path "utf-8-sig";
               WriteRow csv_path ";" (map VStr (keys first)) ]
          ++ map (fun d => WriteRow csv_path ";" (row_cells (keys first) d))
                 (first :: good)
          ++ [ Close csv_path;
               generic_failure_category (mk_exn ValueError msg) ])%list).
Proof.
  intros Hfs Hgood Hk Hnot csv_path.
  assert (Hall : Forall (fun d => incl (keys d) (keys first)) (first :: good)).
  { constructor; [apply incl_refl | exact Hgood]. }
  destruct (writerows_refused Hfs csv_path (keys first) (first :: good) bad
              rest k
              ((h ++ [Makedirs Saver.category_csv_dir]) ++
               [OpenWrite csv_path "utf-8-sig"] ++
               [WriteRow csv_path ";" (map VStr (keys first))])%list
              Hall Hk Hnot) as [msg Hrows].
  exists msg.
  unfold Saver.save_category_to_csv, Saver.save_category_try.
  rewrite (perform_ok Hfs). fold (category_file category_name). fold csv_path.
  unfold Io.bind at 1, with_open. rewrite (perform_ok Hfs).
  unfold Io.bind at 1, lift at 1. cbn [nth_error from_option].
  unfold Io.bind at 1, writeheader. rewrite (perform_ok Hfs).
  change ((first :: good) ++ bad :: rest)%list
    with (first :: good ++ bad :: rest)%list in Hrows.
  rewrite <- !app_assoc in *. cbn [app] in *. rewrite Hrows.
  rewrite (perform_ok Hfs).
  unfold Saver.save_category_except. cbn [is_PermissionError exn_cls].
  unfold print, generic_failure_category.
  rewrite <- !app_assoc. reflexivity.
Qed.

(** X12. A record without a [title] makes [save_to_csv] create the
    directory and nothing else: no file is opened, the [KeyError] is
    printed and no file name is returned. *)
Theorem record_without_title book_data folder h :
  dict_get book_data "title" = None ->
  fs_raises h (Makedirs (single_dir folder)) = None ->
  Saver.save_to_csv book_data folder h
  = (Return None,
     (h ++ [ Makedirs (single_dir folder);
             generic_failure_single (mk_exn KeyError "'title'") ])%list).
Proof.
  intros Ht Hmk.
  unfold Saver.save_to_csv, try_except, Saver.save_to_csv_try.
  fold (single_dir folder).
  unfold Io.bind at 1, perform at 1. rewrite Hmk.
  unfold Io.bind at 1, lift at 1, dict_getitem. rewrite Ht.
  cbn [from_option is_Exception]. unfold Saver.save_to_csv_except.
  cbn [is_PermissionError exn_cls]. unfold Io.bind, print, ret.
  unfold generic_failure_single. rewrite <- app_assoc. reflexivity.
Qed.

(** X13. What the writers can raise.  [save_to_csv] raises nothing but the
    file-in-use [PermissionError] for its directory; the category writer
    of [utils/saver.py] nothing but that error for its directory or its
    file; the category writer of [phase2/scraper_category.py] never
    raises. *)
Theorem writers_raise_only_file_in_use :
  (forall book_data folder h e h',
      Saver.save_to_csv book_data folder h = (Raise e, h') ->
      e = Saver.file_in_use (single_dir folder))
  /\ (forall data_list category_name h e h',
         Saver.save_category_to_csv data_list category_name h = (Raise e, h') ->
         e = Saver.file_in_use Saver.category_csv_dir
         \/ e = Saver.file_in_use (category_file category_name))
  /\ (forall data_list category_name h,
         fst (Phase2.save_category_to_csv data_list category_name h)
         = Return tt).
Proof.
  split; [|split].
  - intros book_data folder h e h'.
    unfold Saver.save_to_csv, try_except.
    destruct (Saver.save_to_csv_try book_data folder h) as [[o|e0] h0];
      [discriminate|].
    cbn [is_Exception]. unfold Saver.save_to_csv_except, single_dir.
    destruct (is_PermissionError e0); unfold raise, Io.bind, print, ret.
    + intros H; inversion H; reflexivity.
    + discriminate.
  - intros data_list category_name h e h'.
    unfold Saver.save_category_to_csv.
    destruct data_list as [|d l]; [unfold print; discriminate|].
    unfold Saver.save_category_try.
    destruct (perform (Makedirs Saver.category_csv_dir) h) as [[[]|e0] h0].
    + fold (category_file category_name).
      match goal with
      | |- context [Io.bind ?m ?k h0] => destruct (Io.bind m k h0) as [[[]|e1] h1]
      end; [discriminate|].
      unfold Saver.save_category_except.
      destruct (is_PermissionError e1); unfold raise, print.
      * intros H; inversion H. now right.
      * discriminate.
    + unfold Saver.save_category_except.
      destruct (is_PermissionError e0); unfold raise, print.
      * intros H; inversion H. now left.
      * discriminate.
  - intros data_list category_name h.
    unfold Phase2.save_category_to_csv.
    destruct data_list as [|d l]; [reflexivity|].
    unfold try_except.
    match goal with
    | |- context [Io.bind ?m ?k h] => destruct (Io.bind m k h) as [[[]|e1] h1]
    end; reflexivity.
Qed.

(** ** Files are closed *)

(** Every file opened in [evs] is closed in [evs]. *)
Definition opens_are_closed (evs : trace) : Prop :=
  forall p enc, In (OpenWrite p enc) evs -> In (Close p) evs.

(** A block only adds events, and closes the files it opens. *)
Definition tidy {A} (m : io A) : Prop :=
  forall h, exists evs,
    snd (m h) = (h ++ evs)%list /\ opens_are_closed evs.

Definition opens_nothing (ev : event) : Prop :=
  match ev with
  | OpenWrite _ _ => False
  | _ => True
  end.

Lemma closed_nil : opens_are_closed [].
Proof. intros p enc []. Qed.

Lemma closed_app e1 e2 :
  opens_are_closed e1 -> opens_are_closed e2 ->
  opens_are_closed (e1 ++ e2)%list.
Proof.
  intros H1 H2 p enc Hin. apply in_or_app.
  apply in_app_or in Hin as [Hin|Hin]; [left; eauto | right; eauto].
Qed.

Lemma closed_single ev : opens_nothing ev -> opens_are_closed [ev].
Proof.
  intros Hev p enc [E|[]]. subst ev. destruct Hev.
Qed.

Lemma tidy_ret {A} (a : A) : tidy (ret a).
Proof. intros h. exists []. rewrite app_nil_r. split; [reflexivity|apply closed_nil]. Qed.

Lemma tidy_raise {A} e : tidy (@raise _ A e).
Proof. intros h. exists []. rewrite app_nil_r. split; [reflexivity|apply closed_nil]. Qed.

Lemma tidy_lift {A} (r : result A) : tidy (lift r).
Proof. intros h. exists []. rewrite app_nil_r. split; [reflexivity|apply closed_nil]. Qed.

Lemma tidy_print msg : tidy (print msg).
Proof.
  intros h. exists [Print msg]. split; [reflexivity|].
  now apply closed_single.
Qed.

Lemma tidy_perform ev : opens_nothing ev -> tidy (perform ev).
Proof.
  intros Hev h. unfold perform. destruct (fs_raises h ev).
  - exists []. rewrite app_nil_r. split; [reflexivity|apply closed_nil].
  - exists [ev]. split; [reflexivity | now apply closed_single].
Qed.

Lemma tidy_bind {A B} (m : io A) (k : A -> io B) :
  tidy m -> (forall a, tidy (k a)) -> tidy (Io.bind m k).
Proof.
  intros Hm Hk h. destruct (Hm h) as (e1 & E1 & B1). unfold Io.bind.
  destruct (m h) as [[a|e] h1]; cbn [snd] in E1; subst h1.
  - destruct (Hk a (h ++ e1)%list) as (e2 & E2 & B2).
    exists (e1 ++ e2)%list. rewrite E2, app_assoc.
    split; [reflexivity | now apply closed_app].
  - exists e1. auto.
Qed.

Lemma tidy_try_except {A} (m : io A) sel handler :
  tidy m -> (forall e, tidy (handler e)) -> tidy (try_except m sel handler).
Proof.
  intros Hm Hh h. destruct (Hm h) as (e1 & E1 & B1). unfold try_except.
  destruct (m h) as [[a|e] h1]; cbn [snd] in E1; subst h1.
  - exists e1. auto.
  - destruct (sel e); [|exists e1; auto].
    destruct (Hh e (h ++ e1)%list) as (e2 & E2 & B2).
    exists (e1 ++ e2)%list. rewrite E2, app_assoc.
    split; [reflexivity | now apply closed_app].
Qed.

(** Closing a file does not fail. *)
Definition closing_works : Prop := forall h p, fs_raises h (Close p) = None.

Lemma tidy_with_open {A} path enc (body : io A) :
  closing_works -> tidy body -> tidy (with_open path enc body).
Proof.
  intros Hclose Hbody h. unfold with_open, perform at 1.
  destruct (fs_raises h (OpenWrite path enc)).
  - exists []. rewrite app_nil_r. split; [reflexivity|apply closed_nil].
  - destruct (Hbody (h ++ [OpenWrite path enc])%list) as (e1 & E1 & B1).
    assert (K : opens_are_closed
                  (OpenWrite path enc :: e1 ++ [Close path])%list).
    { intros p enc' [H|H].
      - inversion H; subst. right. apply in_or_app. right. now left.
      - right. apply in_or_app. apply in_app_or in H as [H|[H|[]]].
        + left. eauto.
        + discriminate. }
    destruct (body (h ++ [OpenWrite path enc])%list) as [[a|e] h1];
      cbn [snd] in E1; subst h1; unfold perform; rewrite Hclose;
      exists (OpenWrite path enc :: e1 ++ [Close path])%list;
      (split; [cbn [snd]; now rewrite <- !app_assoc | exact K]).
Qed.

Lemma tidy_writerows path fieldnames rows :
  tidy (writerows path ";" fieldnames rows).
Proof.
  induction rows as [|d rows IH]; [apply tidy_ret|].
  cbn [writerows]. apply tidy_bind; [|intros _; exact IH].
  unfold writerow. apply tidy_bind; [apply tidy_lift|].
  intros cells. now apply tidy_perform.
Qed.

(** X14. If closing a file does not fail, each writer closes the file it
    opened, whatever else fails: in the events [save_to_csv] and the two
    category writers add, every opening of a file is matched by the
    closing of that file. *)
Theorem writers_close_their_file :
  closing_works ->
  (forall book_data folder, tidy (Saver.save_to_csv book_data folder))
  /\ (forall data_list category_name,
         tidy (Saver.save_category_to_csv data_list category_name))
  /\ (forall data_list category_name,
         tidy (Phase2.save_category_to_csv data_list category_name)).
Proof.
  intros Hclose. split; [|split].
  - intros book_data folder. unfold Saver.save_to_csv.
    apply tidy_try_except.
    + unfold Saver.save_to_csv_try.
      apply tidy_bind; [now apply tidy_perform|]. intros _.
      apply tidy_bind; [apply tidy_lift|]. intros title.
      apply tidy_bind; [apply tidy_lift|]. intros clean_title.
      apply tidy_bind.
      * apply tidy_with_open; [exact Hclose|].
        apply tidy_bind; [now apply tidy_perform|]. intros _.
        unfold writerow. apply tidy_bind; [apply tidy_lift|].
        intros cells. now apply tidy_perform.
      * intros _. apply tidy_bind; [apply tidy_lift|]. intros title'.
        apply tidy_bind; [apply tidy_print|]. intros _. apply tidy_ret.
    + intros e. unfold Saver.save_to_csv_except.
      destruct (is_PermissionError e); [apply tidy_raise|].
      apply tidy_bind; [apply tidy_print|]. intros _. apply tidy_ret.
  - intros data_list category_name. unfold Saver.save_category_to_csv.
    destruct data_list as [|d l]; [apply tidy_print|].
    assert (Hexc : forall p e, tidy (Saver.save_category_except p e)).
    { intros p e. unfold Saver.save_category_except.
      destruct (is_PermissionError e); [apply tidy_raise|apply tidy_print]. }
    assert (Hbody : tidy
      (Io.bind (with_open (category_file category_name) "utf-8-sig"
                  (Io.bind (lift (from_option (nth_error (d :: l) 0)
                                    index_out_of_range))
                     (fun first =>
                        Io.bind (writeheader (category_file category_name)
                                   ";" (keys first))
                          (fun _ => writerows (category_file category_name)
                                      ";" (keys first) (d :: l)))))
         (fun _ => print ("[SAUVEGARDE] " ++ str_of_len (d :: l)
                            ++ " livres enregistrés dans : "
                            ++ category_file category_name)))).
    { apply tidy_bind; [|intros _; apply tidy_print].
      apply tidy_with_open; [exact Hclose|].
      apply tidy_bind; [apply tidy_lift|]. intros first.
      apply tidy_bind; [now apply tidy_perform|]. intros _.
      apply tidy_writerows. }
    intros h. unfold Saver.save_category_try.
    destruct (tidy_perform (Makedirs Saver.category_csv_dir) I h)
      as (e0 & E0 & B0).
    destruct (perform (Makedirs Saver.category_csv_dir) h) as [[[]|e] h0];
      cbn [snd] in E0; subst h0.
    + fold (category_file category_name).
      destruct (Hbody (h ++ e0)%list) as (e1 & E1 & B1).
      match goal with
      | |- context [Io.bind ?m ?k (h ++ e0)%list] =>
          change (Io.bind m k (h ++ e0)%list)
            with (Io.bind m k (h ++ e0)%list) in *;
          destruct (Io.bind m k (h ++ e0)%list) as [[[]|e'] h1]
      end; cbn [snd] in E1; subst h1.
      * exists (e0 ++ e1)%list. rewrite app_assoc.
        split; [reflexivity | now apply closed_app].
      * destruct (Hexc (category_file category_name) e' ((h ++ e0) ++ e1)%list)
          as (e2 & E2 & B2).
        exists ((e0 ++ e1) ++ e2)%list. rewrite E2, !app_assoc.
        split; [reflexivity | repeat apply closed_app; assumption].
    + destruct (Hexc Saver.category_csv_dir e (h ++ e0)%list)
        as (e2 & E2 & B2).
      exists (e0 ++ e2)%list. rewrite E2, app_assoc.
      split; [reflexivity | now apply closed_app].
  - intros data_list category_name. unfold Phase2.save_category_to_csv.
    destruct data_list as [|d l]; [apply tidy_print|].
    apply tidy_try_except; [|intros e; apply tidy_print].
    apply tidy_bind; [now apply tidy_perform|]. intros _.
    apply tidy_bind; [|intros _; apply tidy_print].
    apply tidy_with_open; [exact Hclose|].
    apply tidy_bind; [apply tidy_lift|]. intros first.
    apply tidy_bind; [now apply tidy_perform|]. intros _.
    apply tidy_writerows.
Qed.

End Writers.
End WriterFacts.

(* ================================================================== *)
(** * Further properties: the entry points *)
(* ================================================================== *)

Module MainFacts.
Import Io.

Section Mains.
Context {F : PyFloat} {U : Urllib} {R : Requests} {P : HtmlParser}
        {FS : FileSystem} {OS : Os} {D : Today} {C : Cleaner}.

(** Fetching a page and extracting its record, as both entry points do. *)
Definition scrape (url : string) : result (dict value) :=
  soup <- Phase1.fetch_page url ;; Phase1.extract_book_data soup url.

Definition error_line (e : exn) : event := Print ("[ERREUR] : " ++ exn_msg e).

Lemma phase1_main_eq h :
  Phase1Main.main h
  = match scrape Phase1Main.url with
    | Raise e => (Return tt, (h ++ [error_line e])%list)
    | Return book_data =>
        match Saver.save_to_csv book_data "CSV" h with
        | (Return _, h') => (Return tt, h')
        | (Raise e, h') => (Return tt, (h' ++ [error_line e])%list)
        end
    end.
Proof.
  unfold scrape, Phase1Main.main, try_except, Phase1Main.report, error_line.
  unfold Io.bind at 1, lift at 1.
  destruct (Phase1.fetch_page Phase1Main.url) as [soup|e0];
    cbn [Py.bind is_Exception]; [|reflexivity].
  unfold Io.bind at 1, lift.
  destruct (Phase1.extract_book_data soup Phase1Main.url) as [bd|e1];
    cbn [is_Exception]; [|reflexivity].
  unfold Io.bind, ret, Phase1Main.CSV_FOLDER.
  destruct (Saver.save_to_csv bd "CSV" h) as [[o|e2] h2]; reflexivity.
Qed.

(** X15. [main] of [phase1/scraper.py] never raises.  When the page cannot
    be fetched or its record cannot be extracted, it prints one error line
    and does nothing else: no directory is made and no file is opened.
    When the record is extracted, it does what [save_to_csv] does with the
    record and the folder [CSV], and prints one error line if that
    raised. *)
Theorem phase1_main_outcomes h :
  fst (Phase1Main.main h) = Return tt
  /\ (forall e,
         scrape Phase1Main.url = Raise e ->
         Phase1Main.main h = (Return tt, (h ++ [error_line e])%list))
  /\ (forall book_data,
         scrape Phase1Main.url = Return book_data ->
         Phase1Main.main h
         = match Saver.save_to_csv book_data "CSV" h with
           | (Return _, h') => (Return tt, h')
           | (Raise e, h') => (Return tt, (h' ++ [error_line e])%list)
           end).
Proof.
  rewrite phase1_main_eq. split; [|split].
  - destruct (scrape Phase1Main.url) as [bd|e]; [|reflexivity].
    destruct (Saver.save_to_csv bd "CSV" h) as [[o|e2] h2]; reflexivity.
  - now intros e ->.
  - now intros bd ->.
Qed.

(** ** Blocks that only print *)

Definition is_print (ev : event) : Prop :=
  match ev with
  | Print _ => True
  | _ => False
  end.

(** A block only adds console lines to the events. *)
Definition only_prints {A} (m : io A) : Prop :=
  forall h, exists evs,
    snd (m h) = (h ++ evs)%list /\ Forall is_print evs.

Lemma only_prints_ret {A} (a : A) : only_prints (ret a).
Proof. intros h. exists []. now rewrite app_nil_r. Qed.

Lemma only_prints_raise {A} e : only_prints (@raise _ A e).
Proof. intros h. exists []. now rewrite app_nil_r. Qed.

Lemma only_prints_lift {A} (r : result A) : only_prints (lift r).
Proof. intros h. exists []. now rewrite app_nil_r. Qed.

Lemma only_prints_print msg : only_prints (print msg).
Proof.
  intros h. exists [Print msg]. split; [reflexivity|].
  repeat constructor.
Qed.

Lemma only_prints_bind {A B} (m : io A) (k : A -> io B) :
  only_prints m -> (forall a, only_prints (k a)) -> only_prints (Io.bind m k).
Proof.
  intros Hm Hk h. destruct (Hm h) as (e1 & E1 & B1). unfold Io.bind.
  destruct (m h) as [[a|e] h1]; cbn [snd] in E1; subst h1.
  - destruct (Hk a (h ++ e1)%list) as (e2 & E2 & B2).
    exists (e1 ++ e2)%list. rewrite E2, app_assoc.
    split; [reflexivity | now apply Forall_app].
  - exists e1. auto.
Qed.

Lemma only_prints_try_except {A} (m : io A) sel handler :
  only_prints m -> (forall e, only_prints (handler e)) ->
  only_prints (try_except m sel handler).
Proof.
  intros Hm Hh h. destruct (Hm h) as (e1 & E1 & B1). unfold try_except.
  destruct (m h) as [[a|e] h1]; cbn [snd] in E1; subst h1.
  - exists e1. auto.
  - destruct (sel e); [|exists e1; auto].
    destruct (Hh e (h ++ e1)%list) as (e2 & E2 & B2).
    exists (e1 ++ e2)%list. rewrite E2, app_assoc.
    split; [reflexivity | now apply Forall_app].
Qed.

Lemma only_prints_collect articles : forall current_url urls,
  only_prints (Phase2.collect articles current_url urls).
Proof.
  induction articles as [|a l IH]; intros current_url urls.
  - apply only_prints_ret.
  - cbn [Phase2.collect]. destruct (Phase2.article_url a); [apply IH|].
    apply only_prints_bind; [apply only_prints_print | intros _; apply IH].
Qed.

Lemma only_prints_loop_body st : only_prints (Phase2.loop_body st).
Proof.
  unfold Phase2.loop_body.
  apply only_prints_bind; [apply only_prints_lift|]. intros response.
  destruct (find_all _ "article" _ None) as [|a0 l0];
    [apply only_prints_raise|].
  apply only_prints_bind; [apply only_prints_collect|]. intros urls'.
  apply only_prints_bind; [apply only_prints_print|]. intros _.
  destruct (find _ "li" _ None) as [next_li|]; [|apply only_prints_ret].
  apply only_prints_bind; [apply only_prints_lift|]. intros a.
  apply only_prints_bind; [apply only_prints_lift|]. intros next_page.
  apply only_prints_bind; [apply only_prints_lift|]. intros next_url.
  apply only_prints_ret.
Qed.

Lemma while_true_only_prints fuel : forall st h r h',
  Phase2.while_true fuel st h = Some (r, h') ->
  exists evs, h' = (h ++ evs)%list /\ Forall is_print evs.
Proof.
  induction fuel as [|fuel IH]; intros st h r h'; [discriminate|].
  cbn [Phase2.while_true].
  destruct (only_prints_loop_body st h) as (e1 & E1 & B1).
  destruct (Phase2.loop_body st h) as [[[st1|urls1]|e] h1];
    cbn [snd] in E1; subst h1.
  - intros H. apply IH in H as (e2 & -> & B2).
    exists (e1 ++ e2)%list. rewrite app_assoc.
    split; [reflexivity | now apply Forall_app].
  - intros H; inversion H; subst. eauto.
  - intros H; inversion H; subst. eauto.
Qed.

(** X16. [fetch_category_urls] touches no file: whatever it returns or
    raises, the events it adds are console lines only. *)
Theorem crawl_only_prints fuel category_url h r h' :
  Phase2.fetch_category_urls fuel category_url h = Some (r, h') ->
  exists evs, h' = (h ++ evs)%list /\ Forall is_print evs.
Proof. apply while_true_only_prints. Qed.

(** ** The loop over the books *)

(** The records of the URLs whose page is fetched and extracted. *)
Definition scraped (urls : list string) : list (dict value) :=
  flat_map (fun url => match scrape url with
                       | Return product_data => [product_data]
                       | Raise _ => []
                       end) urls.

(** The lines the loop prints: one per book, and one more for a book that
    failed. *)
Fixpoint books_log (category_name : string) (total : nat) (index : Z)
         (urls : list string) : trace :=
  match urls with
  | [] => []
  | url :: rest =>
      Print (Phase2.book_message index total category_name url)
        :: (match scrape url with
            | Return _ => []
            | Raise e => [Print (Phase2.book_error url e)]
            end ++ books_log category_name total (index + 1) rest)%list
  end.

Definition book_errors (urls : list string) : trace :=
  flat_map (fun url => match scrape url with
                       | Return _ => []
                       | Raise e => [Print (Phase2.book_error url e)]
                       end) urls.

Lemma scrape_books_spec category_name total urls :
  forall index all_products h,
    Phase2.scrape_books category_name total index urls all_products h
    = (Return (all_products ++ scraped urls)%list,
       (h ++ books_log category_name total index urls)%list).
Proof.
  induction urls as [|url rest IH]; intros index all_products h.
  - cbn [Phase2.scrape_books scraped flat_map books_log]. unfold ret.
    now rewrite !app_nil_r.
  - cbn [Phase2.scrape_books scraped flat_map books_log].
    fold (scraped rest). unfold Io.bind at 1, print at 1.
    fold (scrape url). destruct (scrape url) as [d|e].
    + rewrite IH, <- !app_assoc. reflexivity.
    + unfold Io.bind, print. rewrite IH, <- !app_assoc. reflexivity.
Qed.

Lemma scraped_or_failed urls :
  List.length (scraped urls) + List.length (book_errors urls)
  = List.length urls.
Proof.
  induction urls as [|url rest IH]; [reflexivity|].
  unfold scraped, book_errors in *. cbn [flat_map].
  destruct (scrape url); rewrite !length_app; cbn [List.length]; lia.
Qed.

(** X17. The loop over the books of [main] in
    [phase2/scraper_category.py] keeps the records of the books that are
    fetched and extracted, in the order of the URLs, and skips each book
    that fails with one error line; it never raises, and the records kept
    and the error lines together are as many as the URLs. *)
Theorem failed_books_are_skipped category_name total urls :
  (forall index all_products h,
      Phase2.scrape_books category_name total index urls all_products h
      = (Return (all_products ++ scraped urls)%list,
         (h ++ books_log category_name total index urls)%list))
  /\ List.length (scraped urls) + List.length (book_errors urls)
     = List.length urls.
Proof.
  split; [apply scrape_books_spec | apply scraped_or_failed].
Qed.









End Mains.
End MainFacts.

(* ================================================================== *)
(** * The further properties at work on the small world *)
(* ================================================================== *)

Module MoreRuns.
Import Demo Io.

#[local] Existing Instance literal_float.
#[local] Existing Instance plain_urljoin.
#[local] Existing Instance posix.
#[local] Existing Instance a_day.
#[local] Existing Instance underscore_cleaner.

(** ** The category name *)


(** ** The table *)

Definition plain_row (label cell : string) : TableFacts.row :=
  TableFacts.mk_row label cell [Py.nl] [] [Py.nl] [] [] [].

Definition some_items : list TableFacts.item :=
  [ TableFacts.Gap Py.nl;
    TableFacts.Row (plain_row "UPC" "a897fe39b1053632");
    TableFacts.Gap Py.nl;
    TableFacts.Row (plain_row "Availability" "In stock (22 available)");
    TableFacts.Row (plain_row "UPC" "second") ].

Lemma get_table_value_is_lookup_witness :
  "UPC" <> EmptyString
  /\ Phase1.get_table_value
       (Some (mk_element (TableFacts.table_node [] some_items) [])) "UPC"
     = Return "a897fe39b1053632"
  /\ Phase1.get_table_value
       (Some (mk_element (TableFacts.table_node [] some_items) [])) "Tax"
     = Raise (TableFacts.missing_label "Tax").
Proof.
  split; [discriminate|]. split.
  - apply (TableFacts.get_table_value_is_lookup [] some_items [] "UPC").
    discriminate.
  - apply (TableFacts.get_table_value_is_lookup [] some_items [] "Tax").
    discriminate.
Defined.

(** ** The record *)





(** ** The crawl *)







Lemma get_page_accepts_witness :
  exists cause,
    Phase2.get_page (R := two_page_site) missing_url
    = Raise (Phase2.http_failure missing_url cause)
    /\ is_RequestException cause = true.
Proof.
  destruct (CrawlFacts.get_page_accepts (R := two_page_site) missing_url)
    as [_ H].
  destruct (H _ eq_refl) as [(cause & E & T)|[E _]].
  - exists cause. split; [|exact T]. now rewrite <- E.
  - discriminate.
Defined.





Lemma crawl_only_prints_witness :
  exists evs,
    [ Print "Page 1 traitée, 2 livres trouvés.";
      Print "Page 2 traitée, 1 livres trouvés." ] = ([] ++ evs)%list
    /\ Forall MainFacts.is_print evs.
Proof.
  exact (MainFacts.crawl_only_prints
           (R := two_page_site) (P := table_parser)
           2 category_url [] _ _ Runs.two_page_crawl).
Defined.

(** ** The writers *)

Lemma working_fs_never_raises : WriterFacts.never_raises (FS := working_fs).
Proof. intros h ev. reflexivity. Qed.

Lemma category_file_written_witness :
  exists evs,
    Saver.save_category_to_csv (FS := working_fs) [book_record] "Mystery" []
    = (Return tt, evs)
    /\ List.length evs = 6.
Proof.
  destruct (WriterFacts.category_file_written
              (FS := working_fs) book_record [] "Mystery" []
              working_fs_never_raises (Forall_nil _)) as [H _].
  eexists. split; [exact H | reflexivity].
Defined.

Definition short_record : dict value := [("title", VStr "A")].

Definition wide_record : dict value :=
  [("title", VStr "B"); ("extra", VStr "x")].

Lemma extra_field_leaves_partial_file_witness :
  exists evs,
    Saver.save_category_to_csv (FS := working_fs)
      [short_record; wide_record] "Mystery" []
    = (Return tt, evs)
    /\ List.length evs = 6.
Proof.
  destruct (WriterFacts.extra_field_leaves_partial_file
              (FS := working_fs) short_record [] wide_record [] "extra"
              "Mystery" [] working_fs_never_raises (Forall_nil _))
    as [msg H].
  - right. now left.
  - intros [E|[]]. discriminate.
  - eexists. split; [exact H | reflexivity].
Defined.

Lemma record_without_title_witness :
  Saver.save_to_csv (FS := working_fs) [("name", VStr "A")] "CSV" []
  = (Return None,
     [ Makedirs "/srv/scraping/phase1/CSV";
       SaverFacts.generic_failure_single (mk_exn KeyError "'title'") ]).
Proof.
  pose proof (WriterFacts.record_without_title
                (FS := working_fs) [("name", VStr "A")] "CSV" []
                eq_refl eq_refl) as H.
  exact H.
Defined.

Lemma writers_raise_only_file_in_use_witness :
  exists e h',
    Saver.save_to_csv (FS := locked_fs) book_record "CSV" [] = (Raise e, h')
    /\ e = Saver.file_in_use "/srv/scraping/phase1/CSV".
Proof.
  destruct (WriterFacts.writers_raise_only_file_in_use (FS := locked_fs))
    as [H _].
  destruct (Saver.save_to_csv (FS := locked_fs) book_record "CSV" [])
    as [[o|e] h'] eqn:E.
  - vm_compute in E. discriminate.
  - exists e, h'. split; [reflexivity|].
    exact (H book_record "CSV" [] e h' E).
Defined.

Lemma writers_close_their_file_witness :
  exists evs,
    snd (Saver.save_to_csv (FS := working_fs) book_record "CSV" [])
    = ([] ++ evs)%list
    /\ WriterFacts.opens_are_closed evs.
Proof.
  destruct (WriterFacts.writers_close_their_file (FS := working_fs))
    as [H _].
  - intros h p. reflexivity.
  - exact (H book_record "CSV" []).
Defined.

(** ** The entry points *)

Lemma phase1_main_outcomes_witness :
  exists e,
    Phase1Main.main (R := unreachable_site) (P := table_parser)
                    (FS := working_fs) []
    = (Return tt, [MainFacts.error_line e]).
Proof.
  destruct (MainFacts.phase1_main_outcomes
              (R := unreachable_site) (P := table_parser) (FS := working_fs)
              []) as (_ & H & _).
  eexists. apply H. reflexivity.
Defined.



End MoreRuns.
